(** * Capstone blog: a shallow embedding of [main.py]

    The Flask application of [main.py] is modelled as a transition system.
    A state is the committed content of the three tables together with the
    identity kept in the session cookie; one HTTP request is one step.
    View functions are written in a small monad that threads the request
    context (store, session, flashed messages) and propagates Python
    exceptions; the URL map is built by replaying the module's decorators in
    the order Python applies them. *)

From Stdlib Require Import ZArith List String Ascii Bool Lia.
From Stdlib Require Import DecimalString DecimalN.
Import ListNotations.

Open Scope string_scope.
Open Scope Z_scope.

(** ** Tables *)

(** [class User(UserMixin, db.Model)], table [users]. *)
Module User.
Record t : Type := mk
  { id : Z;
    email : string;
    password : string;
    username : string }.
End User.

(** [class BlogPost(db.Model)], table [blog_posts].  The [author]
    relationship is carried by the nullable foreign key [author_id]. *)
Module BlogPost.
Record t : Type := mk
  { id : Z;
    author_id : option Z;
    title : string;
    subtitle : string;
    date : string;
    body : string;
    img_url : string }.
End BlogPost.

(** [class Comment(db.Model)], table [comments].  Both foreign keys are
    declared without [nullable=False]. *)
Module Comment.
Record t : Type := mk
  { id : Z;
    commenter_id : option Z;
    parent_post_id : option Z;
    text : string }.
End Comment.

(** The committed database: rows of each table in insertion order. *)
Record Store : Type := mkStore
  { users : list User.t;
    blog_posts : list BlogPost.t;
    comments : list Comment.t }.

(** Python exceptions that the views can let escape. *)
Inductive exn : Type :=
| AttributeError
| IntegrityError
| UnmappedInstanceError
| OverflowError.

Inductive result (A : Type) : Type :=
| Ok (a : A)
| Raise (e : exn).
Arguments Ok {A} a.
Arguments Raise {A} e.

(** ** Queries and unit-of-work operations *)

(** Integer primary keys: the next key is one more than the largest key
    in the table, and 1 in an empty table. *)
Definition next_id (ids : list Z) : Z := 1 + fold_right Z.max 0 ids.

(** [User.query.get(id)] *)
Definition User_query_get (s : Store) (i : Z) : option User.t :=
  find (fun u => User.id u =? i) (users s).

(** [User.query.filter_by(email=e).first()] *)
Definition User_filter_by_email_first (s : Store) (e : string) : option User.t :=
  find (fun u => String.eqb (User.email u) e) (users s).

(** The row that [BlogPost.query.get(id)] selects, for a key the database
    driver accepts; the views go through [BlogPost_get] below, which
    accounts for the keys it refuses. *)
Definition BlogPost_query_get (s : Store) (i : Z) : option BlogPost.t :=
  find (fun p => BlogPost.id p =? i) (blog_posts s).

(** [BlogPost.query.all()] *)
Definition BlogPost_query_all (s : Store) : list BlogPost.t := blog_posts s.

(** [db.session.add(new_user); db.session.commit()]: the INSERT is refused
    when the [unique=True] column [email] would hold a duplicate. *)
Definition insert_user (s : Store) (e un pw : string) : result (User.t * Store) :=
  if existsb (fun u => String.eqb (User.email u) e) (users s) then Raise IntegrityError
  else
    let u := User.mk (next_id (map User.id (users s))) e pw un in
    Ok (u, mkStore (users s ++ [u])%list (blog_posts s) (comments s)).

(** [db.session.add(new_post); db.session.commit()]: the INSERT is refused
    when the [unique=True] column [title] would hold a duplicate. *)
Definition insert_post (s : Store) (author : option Z)
    (ti su da bo im : string) : result (BlogPost.t * Store) :=
  if existsb (fun p => String.eqb (BlogPost.title p) ti) (blog_posts s) then Raise IntegrityError
  else
    let p := BlogPost.mk (next_id (map BlogPost.id (blog_posts s))) author ti su da bo im in
    Ok (p, mkStore (users s) (blog_posts s ++ [p])%list (comments s)).

(** [db.session.add(new_comment); db.session.commit()] *)
Definition insert_comment (s : Store) (commenter parent : option Z)
    (tx : string) : Comment.t * Store :=
  let c := Comment.mk (next_id (map Comment.id (comments s))) commenter parent tx in
  (c, mkStore (users s) (blog_posts s) (comments s ++ [c])%list).

(** [db.session.commit()] after attribute assignments on a loaded post: the
    row with the post's key is rewritten; the UPDATE is refused when another
    row already carries the new title. *)
Definition update_post (s : Store) (p' : BlogPost.t) : result Store :=
  if existsb (fun q => negb (BlogPost.id q =? BlogPost.id p')
                       && String.eqb (BlogPost.title q) (BlogPost.title p'))
             (blog_posts s)
  then Raise IntegrityError
  else Ok (mkStore (users s)
             (map (fun q => if BlogPost.id q =? BlogPost.id p' then p' else q) (blog_posts s))
             (comments s)).

(** The [blogpost_comments] relationship has the default cascade, so
    deleting the parent row sets the foreign key of its comments to NULL. *)
Definition orphan (i : Z) (c : Comment.t) : Comment.t :=
  match Comment.parent_post_id c with
  | Some j => if j =? i
              then Comment.mk (Comment.id c) (Comment.commenter_id c) None (Comment.text c)
              else c
  | None => c
  end.

(** [db.session.delete(post); db.session.commit()] *)
Definition delete_post_row (s : Store) (p : BlogPost.t) : Store :=
  mkStore (users s)
    (filter (fun q => negb (BlogPost.id q =? BlogPost.id p)) (blog_posts s))
    (map (orphan (BlogPost.id p)) (comments s)).

(** ** Dates *)

(** A [datetime.date]. *)
Record Date : Type := mkDate { year : Z; month : Z; day : Z }.

Definition month_name (m : Z) : string :=
  match m with
  | 1 => "January" | 2 => "February" | 3 => "March" | 4 => "April"
  | 5 => "May" | 6 => "June" | 7 => "July" | 8 => "August"
  | 9 => "September" | 10 => "October" | 11 => "November" | 12 => "December"
  | _ => ""
  end.

Definition digit (n : Z) : ascii := ascii_of_nat (48 + Z.to_nat (n mod 10)).

Definition two_digits (n : Z) : string :=
  String (digit (n / 10)) (String (digit n) "").

(** A number in decimal, without padding. *)
Definition decimal (n : Z) : string :=
  NilEmpty.string_of_uint (N.to_uint (Z.to_N n)).

(** The directives of [strftime] that [main.py] uses: [%B] full month name,
    [%d] day of the month on two digits, [%Y] year with century, printed
    as it is (a year below 1000 is not padded). *)
Definition directive (c : ascii) (d : Date) : string :=
  match c with
  | "B"%char => month_name (month d)
  | "d"%char => two_digits (day d)
  | "Y"%char => decimal (year d)
  | "%"%char => "%"
  | _ => String "%" (String c "")
  end.

Fixpoint strftime (d : Date) (fmt : string) : string :=
  match fmt with
  | EmptyString => EmptyString
  | String c rest =>
      match c, rest with
      | "%"%char, String k rest' => directive k d ++ strftime d rest'
      | _, _ => String c (strftime d rest)
      end
  end.

(** ** Requests, responses and the request context *)

Inductive Method : Type := GET | POST.

Definition Method_eqb (a b : Method) : bool :=
  match a, b with
  | GET, GET | POST, POST => true
  | _, _ => false
  end.

(** What one request brings: its method, the submitted form fields, and the
    two ambient inputs the views read, the clock ([date.today()]) and the
    random salt drawn by [generate_password_hash]. *)
Record Request : Type := mkRequest
  { method : Method;
    form : list (string * string);
    today : Date;
    salt : string }.

(** A request target: a fixed path, or a path with an integer segment. *)
Inductive Url : Type :=
| At (path : string)
| AtInt (prefix : string) (n : Z).

(** [url_for] is called with three endpoints only. *)
Inductive Endpoint : Type :=
| to_get_all_posts
| to_login
| to_show_post (post_id : Z).

Definition url_for (e : Endpoint) : Url :=
  match e with
  | to_get_all_posts => At "/"
  | to_login => At "/login"
  | to_show_post i => AtInt "/post/" i
  end.

(** A template with the context variables the view passes to it (the
    constant [year=CURRENT_YEAR] is left out). *)
Inductive Template : Type :=
| index_html (all_posts : list BlogPost.t)
| register_html
| login_html
| post_html (post : option BlogPost.t)
| make_post_html (prefill : option BlogPost.t)
| about_html
| contact_html.

Inductive Response : Type :=
| render_template (t : Template)
| redirect (location : Url)
| abort (status : Z)
| InternalServerError (e : exn).

(** The persistent state between requests: the committed tables and the
    user id that the signed session cookie carries, if any. *)
Record State : Type := mkState
  { db : Store;
    session : option Z }.

(** The outcome of one request. *)
Record Result : Type := mkResult
  { after : State;
    flashed : list string;
    response : Response }.

(** *** The view monad: state, flashed messages, exceptions *)

Definition M (A : Type) : Type := State -> result (A * State * list string).

Definition ret {A} (a : A) : M A := fun st => Ok (a, st, []).

Definition bind {A B} (m : M A) (k : A -> M B) : M B :=
  fun st =>
    match m st with
    | Raise e => Raise e
    | Ok (a, st1, fl1) =>
        match k a st1 with
        | Raise e => Raise e
        | Ok (b, st2, fl2) => Ok (b, st2, (fl1 ++ fl2)%list)
        end
    end.

Definition raise {A} (e : exn) : M A := fun _ => Raise e.

Definition lift {A} (r : result A) : M A :=
  fun st => match r with Ok a => Ok (a, st, []) | Raise e => Raise e end.

Definition query {A} (q : Store -> A) : M A := fun st => Ok (q (db st), st, []).

(** An SQLite INTEGER is a signed 64-bit number: the driver refuses to bind
    any other Python integer. *)
Definition bindable (i : Z) : bool := (- 2 ^ 63 <=? i) && (i <? 2 ^ 63).

(** [BlogPost.query.get(post_id)] as the views run it: a key that cannot be
    bound raises [OverflowError] before any row is looked up. *)
Definition BlogPost_get (post_id : Z) : M (option BlogPost.t) :=
  fun st =>
    if bindable post_id then Ok (BlogPost_query_get (db st) post_id, st, [])
    else Raise OverflowError.

Definition commit (s : Store) : M unit :=
  fun st => Ok (tt, mkState s (session st), []).

Definition flash (msg : string) : M unit := fun st => Ok (tt, st, [msg]).

Declare Scope view_scope.
Delimit Scope view_scope with view.
Notation "x <- m ;; k" := (bind m (fun x => k))
  (at level 61, m at next level, right associativity) : view_scope.
Notation "m ;; k" := (bind m (fun _ => k))
  (at level 61, right associativity) : view_scope.
Open Scope view_scope.

(** An escaped exception becomes a 500 response; nothing was committed and
    the session is as it was. *)
Definition run (m : M Response) (st : State) : Result :=
  match m st with
  | Ok (r, st', fl) => mkResult st' fl r
  | Raise e => mkResult st [] (InternalServerError e)
  end.

(** *** Flask-Login *)

(** [@login_manager.user_loader] *)
Definition load_user (s : Store) (user_id : Z) : option User.t :=
  User_query_get s user_id.

(** The user behind the session cookie: the row its id resolves to, or
    [None] for the anonymous user, which has [is_authenticated = False] and
    no [id] attribute. *)
Definition identity (st : State) : option User.t :=
  match session st with
  | Some uid => load_user (db st) uid
  | None => None
  end.

(** [current_user] *)
Definition current_user : M (option User.t) :=
  fun st => Ok (identity st, st, []).

Definition login_user (u : User.t) : M unit :=
  fun st => Ok (tt, mkState (db st) (Some (User.id u)), []).

Definition logout_user : M unit :=
  fun st => Ok (tt, mkState (db st) None, []).

(** ** Forms *)

(** The four form classes imported from [forms.py]. *)
Inductive FormClass : Type :=
| CreatePostForm
| RegisterForm
| LoginForm
| CommentForm.

(** A Python value as a form field can hold it; [PyUser i] is a reference
    to the persistent [User] object whose key is [i]. *)
Inductive PyValue : Type :=
| PyNone
| PyStr (s : string)
| PyUser (user_id : Z).

Fixpoint lookup {A : Type} (name : string) (l : list (string * A)) : option A :=
  match l with
  | [] => None
  | (k, v) :: l' => if String.eqb k name then Some v else lookup name l'
  end.

(** A form object inside a request: its class, the keyword arguments it was
    built with (they become the initial data of the fields), whether the
    request is a submission, and the submitted fields. *)
Record Form : Type := mkForm
  { form_class : FormClass;
    defaults : list (string * PyValue);
    is_submitted : bool;
    formdata : list (string * string) }.

(** Instantiating a form class with keyword arguments inside a request:
    only a POST is a submission and only then are the request's fields
    read. *)
Definition new_form (F : FormClass) (kwargs : list (string * PyValue))
    (req : Request) : Form :=
  match method req with
  | POST => mkForm F kwargs true (form req)
  | GET => mkForm F kwargs false []
  end.

(** [form.<name>.data] of a text field: the submitted value; failing that,
    the text the form was built with; failing that, the empty string. *)
Definition data (name : string) (f : Form) : string :=
  match lookup name (formdata f) with
  | Some v => v
  | None =>
      match lookup name (defaults f) with
      | Some (PyStr s) => s
      | _ => ""
      end
  end.

(** The value of the [author] relationship as a Python object. *)
Definition author_object (p : BlogPost.t) : PyValue :=
  match BlogPost.author_id p with
  | Some a => PyUser a
  | None => PyNone
  end.

(** [CreatePostForm(title=post.title, subtitle=post.subtitle,
    img_url=post.img_url, author=post.author, body=post.body)] *)
Definition edit_form_for (post : BlogPost.t) (req : Request) : Form :=
  new_form CreatePostForm
    [("title", PyStr (BlogPost.title post));
     ("subtitle", PyStr (BlogPost.subtitle post));
     ("img_url", PyStr (BlogPost.img_url post));
     ("author", author_object post);
     ("body", PyStr (BlogPost.body post))]
    req.

(** ** The views of [main.py] *)

Definition View : Type := Request -> M Response.

(** A registered view function, with or without the [post_id] argument. *)
Inductive Handler : Type :=
| Plain (f : View)
| WithPostId (f : Z -> View).

Section Views.

(** [forms.py] and [werkzeug.security] are outside the module: the field
    validators of the form classes ([form.validate()]), the value that the
    [author] field of [CreatePostForm] yields ([None] when the class
    declares no such field), and the two password functions are taken as
    given. *)
Variable validate : Form -> bool.
Variable author_data : Form -> option PyValue.
Variable generate_password_hash : string -> string -> string.
Variable check_password_hash : string -> string -> bool.

(** [form.validate_on_submit()] *)
Definition validate_on_submit (f : Form) : bool :=
  is_submitted f && validate f.

(** [@app.route('/')] *)
Definition get_all_posts : View := fun _ =>
  posts <- query BlogPost_query_all ;;
  ret (render_template (index_html posts)).

(** [@app.route('/register', methods=["GET", "POST"])] *)
Definition register : View := fun req =>
  let form := new_form RegisterForm [] req in
  if validate_on_submit form then
    existing <- query (fun s => User_filter_by_email_first s (data "email" form)) ;;
    match existing with
    | Some _ =>
        flash "You've already signed up with that email, log in instead!" ;;
        ret (redirect (url_for to_login))
    | None =>
        s <- query (fun s => s) ;;
        r <- lift (insert_user s
                     (data "email" form)
                     (data "username" form)
                     (generate_password_hash (data "password" form) (salt req))) ;;
        commit (snd r) ;;
        login_user (fst r) ;;
        ret (redirect (url_for to_get_all_posts))
    end
  else ret (render_template register_html).

(** [@app.route('/login', methods=["GET", "POST"])] *)
Definition login : View := fun req =>
  let form := new_form LoginForm [] req in
  if validate_on_submit form then
    let entered_email := data "email" form in
    let entered_password := data "password" form in
    user <- query (fun s => User_filter_by_email_first s entered_email) ;;
    match user with
    | None =>
        flash "That email does not exist" ;;
        ret (redirect (url_for to_login))
    | Some user =>
        if negb (check_password_hash (User.password user) entered_password) then
          flash "Password incorrect, please try again" ;;
          ret (redirect (url_for to_login))
        else
          login_user user ;;
          ret (redirect (url_for to_get_all_posts))
    end
  else ret (render_template login_html).

(** [@app.route('/logout')] *)
Definition logout : View := fun _ =>
  logout_user ;;
  ret (redirect (url_for to_get_all_posts)).

(** [@app.route("/post/<int:post_id>", methods=["GET", "POST"])] *)
Definition show_post (post_id : Z) : View := fun req =>
  let form := new_form CommentForm [] req in
  requested_post <- BlogPost_get post_id ;;
  if validate_on_submit form then
    u <- current_user ;;
    match u with
    | None =>
        flash "You need to log in before posting a comment" ;;
        ret (redirect (url_for to_login))
    | Some u =>
        s <- query (fun s => s) ;;
        commit (snd (insert_comment s
                       (Some (User.id u))
                       (option_map BlogPost.id requested_post)
                       (data "comment_text" form))) ;;
        flash "Comment saved" ;;
        ret (render_template (post_html requested_post))
    end
  else ret (render_template (post_html requested_post)).

(** [@app.route("/about")] *)
Definition about : View := fun _ => ret (render_template about_html).

(** [@app.route("/contact")] *)
Definition contact : View := fun _ => ret (render_template contact_html).

(** [def add_new_post()].  With the anonymous user, [author=current_user]
    hands an object that is not a mapped instance to the relationship. *)
Definition add_new_post : View := fun req =>
  let form := new_form CreatePostForm [] req in
  if validate_on_submit form then
    u <- current_user ;;
    match u with
    | None => raise AttributeError
    | Some u =>
        s <- query (fun s => s) ;;
        r <- lift (insert_post s
                     (Some (User.id u))
                     (data "title" form)
                     (data "subtitle" form)
                     (strftime (today req) "%B %d, %Y")
                     (data "body" form)
                     (data "img_url" form)) ;;
        commit (snd r) ;;
        ret (redirect (url_for to_get_all_posts))
    end
  else ret (render_template (make_post_html None)).

(** [post.author = edit_form.author.data]: the relationship accepts a
    mapped [User] or [None]; reading a field the form lacks, or assigning
    any other value, raises. *)
Definition assign_author (edit_form : Form) : M (option Z) :=
  match author_data edit_form with
  | Some (PyUser i) => ret (Some i)
  | Some PyNone => ret None
  | Some (PyStr _) => raise AttributeError
  | None => raise AttributeError
  end.

(** [def edit_post(post_id)].  With no such post, [post.title] is read
    from [None]; with a key that cannot be bound the query itself raises.
    The five assignments change the loaded object only; the row is written
    by the commit. *)
Definition edit_post (post_id : Z) : View := fun req =>
  found <- BlogPost_get post_id ;;
  match found with
  | None => raise AttributeError
  | Some post =>
      let edit_form := edit_form_for post req in
      if validate_on_submit edit_form then
        author <- assign_author edit_form ;;
        s <- query (fun s => s) ;;
        s' <- lift (update_post s
                      (BlogPost.mk (BlogPost.id post)
                         author
                         (data "title" edit_form)
                         (data "subtitle" edit_form)
                         (BlogPost.date post)
                         (data "body" edit_form)
                         (data "img_url" edit_form))) ;;
        commit s' ;;
        ret (redirect (url_for (to_show_post (BlogPost.id post))))
      else ret (render_template (make_post_html (Some post)))
  end.

(** [def delete_post(post_id)].  With no such post, [None] is handed to
    [db.session.delete]; with a key that cannot be bound the query itself
    raises. *)
Definition delete_post (post_id : Z) : View := fun _ =>
  post_to_delete <- BlogPost_get post_id ;;
  match post_to_delete with
  | None => raise UnmappedInstanceError
  | Some p =>
      s <- query (fun s => s) ;;
      commit (delete_post_row s p) ;;
      ret (redirect (url_for to_get_all_posts))
  end.

(** *** The [admin_only] decorator *)

(** [decorated_function]: reading [current_user.id] raises for the
    anonymous user. *)
Definition decorated_function (arg_function : View) : View := fun req =>
  u <- current_user ;;
  match u with
  | None => raise AttributeError
  | Some u =>
      if negb (User.id u =? 1) then ret (abort 403)
      else arg_function req
  end.

Definition admin_only (arg_function : Handler) : Handler :=
  match arg_function with
  | Plain f => Plain (decorated_function f)
  | WithPostId f => WithPostId (fun post_id => decorated_function (f post_id))
  end.

(** *** The application object and its URL map *)

(** A URL rule: a fixed path, or a prefix followed by an [<int:post_id>]
    segment. *)
Inductive Rule : Type :=
| Path (path : string)
| PathInt (prefix : string).

(** [app]: the registered rules, each with its accepted methods and the
    function that was handed to [add_url_rule]. *)
Definition Flask : Type := list (Rule * list Method * Handler).

(** [@app.route(rule, methods=...)]: registers [f] and returns [f]
    itself. *)
Definition route (app : Flask) (rule : Rule) (methods : list Method)
    (f : Handler) : Flask * Handler :=
  ((app ++ [(rule, methods, f)])%list, f).

(** The names that are bound at module level once [main.py] has been
    executed. *)
Record Globals : Type := mkGlobals
  { app : Flask;
    g_add_new_post : Handler;
    g_edit_post : Handler;
    g_delete_post : Handler }.

(** The decorated definitions of [main.py] in source order.  A stack of
    decorators is applied bottom-up: for the three post-mutating views
    [app.route] runs first, on the function as written, and [admin_only]
    then wraps what [app.route] returned. *)
Definition main : Globals :=
  let app0 : Flask := [] in
  let '(app1, _) := route app0 (Path "/") [GET] (Plain get_all_posts) in
  let '(app2, _) := route app1 (Path "/register") [GET; POST] (Plain register) in
  let '(app3, _) := route app2 (Path "/login") [GET; POST] (Plain login) in
  let '(app4, _) := route app3 (Path "/logout") [GET] (Plain logout) in
  let '(app5, _) := route app4 (PathInt "/post/") [GET; POST] (WithPostId show_post) in
  let '(app6, _) := route app5 (Path "/about") [GET] (Plain about) in
  let '(app7, _) := route app6 (Path "/contact") [GET] (Plain contact) in
  let '(app8, routed_add) := route app7 (Path "/new-post") [GET; POST] (Plain add_new_post) in
  let add_new_post' := admin_only routed_add in
  let '(app9, routed_edit) := route app8 (PathInt "/edit-post/") [GET; POST] (WithPostId edit_post) in
  let edit_post' := admin_only routed_edit in
  let '(app10, routed_delete) := route app9 (PathInt "/delete/") [GET] (WithPostId delete_post) in
  let delete_post' := admin_only routed_delete in
  mkGlobals app10 add_new_post' edit_post' delete_post'.

(** Binding the URL arguments of a rule; the [int] converter accepts
    non-negative integers only. *)
Definition bind_args (rule : Rule) (h : Handler) (u : Url) : option View :=
  match rule, h, u with
  | Path p, Plain f, At q => if String.eqb p q then Some f else None
  | PathInt p, WithPostId f, AtInt q n =>
      if String.eqb p q && (0 <=? n) then Some (f n) else None
  | _, _, _ => None
  end.

(** The first rule that matches the target, with its methods. *)
Fixpoint url_match (a : Flask) (u : Url) : option (list Method * View) :=
  match a with
  | [] => None
  | (rule, methods, h) :: a' =>
      match bind_args rule h u with
      | Some v => Some (methods, v)
      | None => url_match a' u
      end
  end.

(** One request against the application: 404 when no rule matches, 405
    when the rule does not accept the method, otherwise the registered
    view function runs. *)
Definition full_dispatch_request (a : Flask) (st : State) (u : Url)
    (req : Request) : Result :=
  match url_match a u with
  | None => mkResult st [] (abort 404)
  | Some (methods, v) =>
      if existsb (Method_eqb (method req)) methods then run (v req) st
      else mkResult st [] (abort 405)
  end.

(** Calling a module-level name directly. *)
Definition call (h : Handler) (post_id : Z) (st : State) (req : Request) : Result :=
  match h with
  | Plain f => run (f req) st
  | WithPostId f => run (f post_id req) st
  end.

End Views.

(** ** Auxiliary notions *)

(** A request creates no comment when the keys of [comments] are the same
    before and after. *)
Definition same_comment_ids (st : State) (r : Result) : Prop :=
  map Comment.id (comments (db (after r))) = map Comment.id (comments (db st)).

(** A store whose primary keys and [unique=True] columns hold no
    duplicate. *)
Definition well_formed (s : Store) : Prop :=
  NoDup (map User.id (users s))
  /\ NoDup (map User.email (users s))
  /\ NoDup (map BlogPost.id (blog_posts s))
  /\ NoDup (map BlogPost.title (blog_posts s))
  /\ NoDup (map Comment.id (comments s)).

(** Every comment that names a commenter names a stored user. *)
Definition commenters_exist (s : Store) : Prop :=
  forall c uid, In c (comments s) -> Comment.commenter_id c = Some uid ->
    exists u, User_query_get s uid = Some u.

(** The dates [datetime.date] can hold. *)
Definition valid_date (d : Date) : Prop :=
  1 <= year d <= 9999 /\ 1 <= month d <= 12 /\ 1 <= day d <= 31.

(** ** Sample environment and states *)

Module Fixture.

(** Modelled from the spec: the validators of [forms.py], a file of the
    repository that is not among the sources; each text field of a form is
    required to be present and non-empty. *)
Definition required (names : list string) (f : Form) : bool :=
  forallb (fun n => negb (String.eqb (data n f) "")) names.

Definition validate (f : Form) : bool :=
  match form_class f with
  | CreatePostForm => required ["title"; "subtitle"; "img_url"; "body"] f
  | RegisterForm => required ["email"; "password"; "username"] f
  | LoginForm => required ["email"; "password"] f
  | CommentForm => required ["comment_text"] f
  end.

(** Two possible [CreatePostForm] classes: one without an [author] field,
    and one whose [author] field is a text field, holding the submitted
    text or else the object the form was built with. *)
Definition no_author : Form -> option PyValue := fun _ => None.
Definition author_text_field : Form -> option PyValue :=
  fun f =>
    match lookup "author" (formdata f) with
    | Some s => Some (PyStr s)
    | None =>
        match lookup "author" (defaults f) with
        | Some v => Some v
        | None => Some (PyStr "")
        end
    end.

(** A stand-in for the password functions: the digest is the salt, a
    dollar sign and the password, and checking recomputes it from the salt
    "s". *)
Definition generate_password_hash (pw slt : string) : string := slt ++ "$" ++ pw.
Definition check_password_hash (pwhash pw : string) : bool :=
  String.eqb pwhash ("s$" ++ pw).

Definition admin : User.t := User.mk 1 "admin@blog.example" "s$root" "admin".
Definition reader : User.t := User.mk 2 "reader@blog.example" "s$secret" "reader".
Definition hello : BlogPost.t :=
  BlogPost.mk 1 (Some 1) "Hello" "first post" "November 01, 2026" "..." "hello.png".

Definition store0 : Store := mkStore [admin; reader] [hello] [].

Definition as_anonymous : State := mkState store0 None.
Definition as_reader : State := mkState store0 (Some 2).
Definition as_admin : State := mkState store0 (Some 1).

Definition a_day : Date := mkDate 2026 11 3.

Definition get : Request := mkRequest GET [] a_day "s".
Definition post (fd : list (string * string)) : Request := mkRequest POST fd a_day "s".

Definition the_app : Flask :=
  app (main validate no_author generate_password_hash check_password_hash).

Definition the_edit_app : Flask :=
  app (main validate author_text_field generate_password_hash check_password_hash).

Definition a_post : list (string * string) :=
  [("title", "Second"); ("subtitle", "more"); ("img_url", "two.png"); ("body", "text")].

End Fixture.

(** Further sample states and forms. *)
Module Scenario.

Definition nobody : State := mkState (mkStore [] [] []) None.

Definition a_comment : Comment.t := Comment.mk 1 (Some 2) (Some 1) "hi".

Definition commented : State :=
  mkState (mkStore [Fixture.admin; Fixture.reader] [Fixture.hello] [a_comment]) (Some 2).

Definition signup : list (string * string) :=
  [("email", "new@blog.example"); ("password", "pw"); ("username", "new")].

Definition newcomer : User.t := User.mk 3 "new@blog.example" "s$pw" "new".

Definition credentials : list (string * string) :=
  [("email", "new@blog.example"); ("password", "pw")].

End Scenario.

(** ** Routing facts *)

(** Which function each URL reaches.  The three post-mutating URLs reach the
    functions as written: the [admin_only] wrappers exist only as module-level
    names. *)

Section Routing.

Variable validate : Form -> bool.
Variable author_data : Form -> option PyValue.
Variable generate_password_hash : string -> string -> string.
Variable check_password_hash : string -> string -> bool.

Local Abbreviation the_main :=
  (main validate author_data generate_password_hash check_password_hash).

Ltac route_plain :=
  intros; unfold full_dispatch_request; simpl;
  match goal with
  | |- context [method ?r] => destruct (method r) eqn:?; try reflexivity; try discriminate
  | _ => reflexivity
  end.

Ltac route_with_id H :=
  intros; unfold full_dispatch_request; simpl;
  rewrite (proj2 (Z.leb_le _ _) H); simpl;
  match goal with
  | |- context [method ?r] => destruct (method r) eqn:?; try reflexivity; try discriminate
  | _ => reflexivity
  end.

Lemma dispatch_register st req :
  full_dispatch_request (app the_main) st (At "/register") req
  = run (register validate generate_password_hash req) st.
Proof. route_plain. Qed.

Lemma dispatch_login st req :
  full_dispatch_request (app the_main) st (At "/login") req
  = run (login validate check_password_hash req) st.
Proof. route_plain. Qed.

Lemma dispatch_logout st req :
  method req = GET ->
  full_dispatch_request (app the_main) st (At "/logout") req = run (logout req) st.
Proof. intros H. unfold full_dispatch_request; simpl. now rewrite H. Qed.

Lemma dispatch_show_post st n req :
  0 <= n ->
  full_dispatch_request (app the_main) st (AtInt "/post/" n) req
  = run (show_post validate n req) st.
Proof. intros H. route_with_id H. Qed.

Lemma dispatch_new_post st req :
  full_dispatch_request (app the_main) st (At "/new-post") req
  = run (add_new_post validate req) st.
Proof. route_plain. Qed.

Lemma dispatch_edit_post st n req :
  0 <= n ->
  full_dispatch_request (app the_main) st (AtInt "/edit-post/" n) req
  = run (edit_post validate author_data n req) st.
Proof. intros H. route_with_id H. Qed.

Lemma dispatch_delete st n req :
  0 <= n -> method req = GET ->
  full_dispatch_request (app the_main) st (AtInt "/delete/" n) req
  = run (delete_post n req) st.
Proof.
  intros H Hm. unfold full_dispatch_request; simpl.
  rewrite (proj2 (Z.leb_le _ _) H); simpl. now rewrite Hm.
Qed.

End Routing.

(** ** Views one by one *)

Section Properties.

Variable validate : Form -> bool.
Variable author_data : Form -> option PyValue.
Variable generate_password_hash : string -> string -> string.
Variable check_password_hash : string -> string -> bool.

Local Abbreviation the_main :=
  (main validate author_data generate_password_hash check_password_hash).

Lemma find_In_some {A} (f : A -> bool) (l : list A) (x : A) :
  In x l -> f x = true -> exists y, find f l = Some y.
Proof.
  intros Hin Hf. destruct (find f l) as [y|] eqn:E.
  - now exists y.
  - apply (find_none f l E) in Hin. congruence.
Qed.

(** C9. [logout] always ends with no session identity and a redirect to the
    post listing, touches nothing else, leaves a state without a session as
    it is, and doing it twice gives the same state as doing it once. *)
Theorem logout_idempotent (st : State) (s : Store) (req req' : Request)
    (f f' : list (string * string)) (d d' : Date) (e e' : string) :
  let r := run (logout req) st in
  session (after r) = None
  /\ db (after r) = db st
  /\ flashed r = []
  /\ response r = redirect (url_for to_get_all_posts)
  /\ after (run (logout req) (mkState s None)) = mkState s None
  /\ run (logout req') (after r) = r
  /\ full_dispatch_request (app the_main) st (At "/logout") (mkRequest GET f d e) = r
  /\ full_dispatch_request (app the_main) (after r) (At "/logout")
       (mkRequest GET f' d' e') = r.
Proof.
  cbv zeta. repeat split.
Qed.

Ltac split6 := split; [ | split; [ | split; [ | split; [ | split ] ] ] ].

Ltac step_view :=
  unfold run, bind, ret, query, BlogPost_get, commit, flash, lift, raise,
    current_user, login_user, logout_user; simpl.

Lemma bindable_in_range (n : Z) : 0 <= n < 2 ^ 63 -> bindable n = true.
Proof.
  intros [H0 H1]. unfold bindable.
  apply andb_true_intro. split; [apply Z.leb_le; lia | now apply Z.ltb_lt].
Qed.

Lemma bindable_too_large (n : Z) : 2 ^ 63 <= n -> bindable n = false.
Proof.
  intros H. unfold bindable. apply andb_false_intro2. now apply Z.ltb_ge.
Qed.

(** C4. A validated registration whose email is already held by a row of
    [users] is answered by the notice and a redirect to the login page; the
    state, and so the [users] table, is exactly what it was. *)
Theorem register_duplicate_email (st : State) (req : Request) (u : User.t) :
  validate_on_submit validate (new_form RegisterForm [] req) = true ->
  In u (users (db st)) ->
  User.email u = data "email" (new_form RegisterForm [] req) ->
  full_dispatch_request (app the_main) st (At "/register") req
  = mkResult st
      ["You've already signed up with that email, log in instead!"]
      (redirect (url_for to_login)).
Proof.
  intros Hv Hin He. rewrite dispatch_register.
  destruct (find_In_some
              (fun v => String.eqb (User.email v) (data "email" (new_form RegisterForm [] req)))
              (users (db st)) u Hin) as [y Hy].
  { rewrite He. apply String.eqb_refl. }
  unfold register. rewrite Hv. step_view.
  unfold User_filter_by_email_first. rewrite Hy. reflexivity.
Qed.


(** C5. For a validated login form: the answer is the redirect to the post
    listing exactly when the first row with the entered email exists and its
    stored hash verifies the entered password, and then the session holds
    that row's id; with a known email and a password that does not verify,
    and likewise with an unknown email, the state (session included) is
    untouched and the user is sent back to the login page with the matching
    notice.  The tables never change. *)
Theorem login_establishes_session_iff (st : State) (req : Request) :
  validate_on_submit validate (new_form LoginForm [] req) = true ->
  let r := full_dispatch_request (app the_main) st (At "/login") req in
  let found :=
    User_filter_by_email_first (db st) (data "email" (new_form LoginForm [] req)) in
  let entered_password := data "password" (new_form LoginForm [] req) in
  ((exists u, found = Some u
              /\ check_password_hash (User.password u) entered_password = true)
   <-> response r = redirect (url_for to_get_all_posts))
  /\ (forall u, found = Some u ->
        check_password_hash (User.password u) entered_password = true ->
        session (after r) = Some (User.id u) /\ flashed r = [])
  /\ (forall u, found = Some u ->
        check_password_hash (User.password u) entered_password = false ->
        r = mkResult st ["Password incorrect, please try again"]
              (redirect (url_for to_login)))
  /\ (found = None ->
        r = mkResult st ["That email does not exist"] (redirect (url_for to_login)))
  /\ (session (after r) <> session st ->
        exists u, found = Some u
                  /\ check_password_hash (User.password u) entered_password = true
                  /\ session (after r) = Some (User.id u))
  /\ db (after r) = db st.
Proof.
  intros Hv. cbv zeta. rewrite dispatch_login.
  unfold login. rewrite Hv. step_view.
  destruct (User_filter_by_email_first (db st) (data "email" (new_form LoginForm [] req)))
    as [u|] eqn:Hf; simpl.
  - destruct (check_password_hash (User.password u)
                (data "password" (new_form LoginForm [] req)))
      eqn:Hc; simpl; split6.
    + split; [reflexivity | exists u; auto].
    + intros v Hv' _. now inversion Hv'.
    + intros v Hv' Hc'. inversion Hv'; subst. congruence.
    + discriminate.
    + intros _. exists u. auto.
    + reflexivity.
    + split; [intros [v [Hv' Hc']]; inversion Hv'; subst; congruence | discriminate].
    + intros v Hv' Hc'. inversion Hv'; subst. congruence.
    + reflexivity.
    + discriminate.
    + intros Hs. now contradiction Hs.
    + reflexivity.
  - split6.
    + split; [intros [v [Hv' _]]; discriminate | discriminate].
    + discriminate.
    + discriminate.
    + reflexivity.
    + intros Hs. now contradiction Hs.
    + reflexivity.
Qed.

(** *** Post authoring *)

Lemma query_get_id (s : Store) (i : Z) (p : BlogPost.t) :
  BlogPost_query_get s i = Some p -> BlogPost.id p = i.
Proof.
  unfold BlogPost_query_get. intros H. apply find_some in H.
  destruct H as [_ H]. now apply Z.eqb_eq in H.
Qed.

Lemma load_user_id (s : Store) (i : Z) (u : User.t) :
  load_user s i = Some u -> User.id u = i /\ In u (users s).
Proof.
  unfold load_user, User_query_get. intros H. apply find_some in H.
  destruct H as [Hin H]. apply Z.eqb_eq in H. auto.
Qed.

Lemma identity_session (st : State) (u : User.t) :
  identity st = Some u -> session st = Some (User.id u) /\ In u (users (db st)).
Proof.
  unfold identity. destruct (session st) as [uid|]; [|discriminate].
  intros H. apply load_user_id in H. destruct H as [<- Hin]. auto.
Qed.

Lemma title_taken (l : list BlogPost.t) (p : BlogPost.t) (t : string) :
  In p l -> BlogPost.title p = t ->
  existsb (fun q => String.eqb (BlogPost.title q) t) l = true.
Proof.
  intros Hin Ht. apply existsb_exists. exists p. split; [assumption|].
  rewrite Ht. apply String.eqb_refl.
Qed.

Lemma append_empty (s : string) : s ++ "" = s.
Proof. induction s as [|c s IH]; simpl; [reflexivity | now rewrite IH]. Qed.

Lemma strftime_B_d_Y (d : Date) :
  strftime d "%B %d, %Y"
  = month_name (month d) ++ " " ++ two_digits (day d) ++ ", " ++ decimal (year d).
Proof. simpl. now rewrite append_empty. Qed.

Lemma title_not_taken_here (l : list BlogPost.t) (t : string) :
  existsb (fun p => String.eqb (BlogPost.title p) t) l = false ->
  ~ In t (map BlogPost.title l).
Proof.
  intros H Hin. apply in_map_iff in Hin. destruct Hin as [p [He Hp]].
  assert (existsb (fun p => String.eqb (BlogPost.title p) t) l = true); [|congruence].
  apply existsb_exists. exists p. split; [assumption|]. rewrite He. apply String.eqb_refl.
Qed.

Lemma title_free (l : list BlogPost.t) (t : string) :
  (forall q, In q l -> BlogPost.title q <> t) ->
  existsb (fun q => String.eqb (BlogPost.title q) t) l = false.
Proof.
  intros H. destruct (existsb _ l) eqn:E; [|reflexivity].
  apply existsb_exists in E. destruct E as [q [Hin He]].
  apply String.eqb_eq in He. now apply H in Hin.
Qed.

(** C7. When the submitted title is the title of a stored post, a request
    to [/new-post] leaves the state as it was, so no row is added, and a
    validated submission ends in an escaped exception: the integrity error
    of the unique title for a logged-in user. *)
Theorem create_post_title_collision (st : State) (req : Request) (p : BlogPost.t) :
  In p (blog_posts (db st)) ->
  BlogPost.title p = data "title" (new_form CreatePostForm [] req) ->
  let r := full_dispatch_request (app the_main) st (At "/new-post") req in
  after r = st
  /\ blog_posts (db (after r)) = blog_posts (db st)
  /\ response r <> redirect (url_for to_get_all_posts)
  /\ response r =
       if validate_on_submit validate (new_form CreatePostForm [] req)
       then InternalServerError
              (match identity st with
               | Some _ => IntegrityError
               | None => AttributeError
               end)
       else render_template (make_post_html None).
Proof.
  intros Hin Ht. cbv zeta. rewrite dispatch_new_post.
  unfold add_new_post.
  destruct (validate_on_submit validate (new_form CreatePostForm [] req)); step_view.
  - destruct (identity st) as [u|]; simpl.
    + unfold insert_post. rewrite (title_taken _ _ _ Hin Ht). simpl.
      repeat split; discriminate.
    + repeat split; discriminate.
  - repeat split; discriminate.
Qed.

(** C8. A validated submission to [/new-post] by a logged-in user, with a
    title that no stored post has, is answered by the redirect to the post
    listing, and exactly one row is appended to [blog_posts]: its date is
    today's date under the format ["%B %d, %Y"] (full month name, two-digit
    day, a comma, the year), its author is the user of the session, its
    text fields are the submitted ones; nothing else in the state
    changes. *)
Theorem create_post_success (st : State) (req : Request) (u : User.t) :
  let form := new_form CreatePostForm [] req in
  validate_on_submit validate form = true ->
  identity st = Some u ->
  (forall q, In q (blog_posts (db st)) -> BlogPost.title q <> data "title" form) ->
  let p := BlogPost.mk (next_id (map BlogPost.id (blog_posts (db st))))
             (Some (User.id u))
             (data "title" form)
             (data "subtitle" form)
             (strftime (today req) "%B %d, %Y")
             (data "body" form)
             (data "img_url" form) in
  let r := full_dispatch_request (app the_main) st (At "/new-post") req in
  r = mkResult
        (mkState (mkStore (users (db st)) (blog_posts (db st) ++ [p]) (comments (db st)))
                 (session st))
        [] (redirect (url_for to_get_all_posts))
  /\ BlogPost.author_id p = session st
  /\ BlogPost.date p
     = month_name (month (today req)) ++ " " ++ two_digits (day (today req))
         ++ ", " ++ decimal (year (today req)).
Proof.
  cbv zeta. intros Hv Hid Hfree. rewrite dispatch_new_post. unfold add_new_post.
  rewrite Hv. step_view. rewrite Hid. simpl.
  unfold insert_post. rewrite (title_free _ _ Hfree). simpl.
  destruct (identity_session _ _ Hid) as [Hs _].
  split; [now rewrite append_empty|]. split; [now rewrite Hs|].
  now rewrite append_empty.
Qed.

(** Conversely, [/new-post] answers with the redirect only in that case. *)
Lemma create_post_redirect_only_if (st : State) (req : Request) :
  let form := new_form CreatePostForm [] req in
  response (full_dispatch_request (app the_main) st (At "/new-post") req)
  = redirect (url_for to_get_all_posts) ->
  validate_on_submit validate form = true
  /\ (exists u, identity st = Some u)
  /\ (forall q, In q (blog_posts (db st)) -> BlogPost.title q <> data "title" form).
Proof.
  cbv zeta. rewrite dispatch_new_post. unfold add_new_post.
  destruct (validate_on_submit validate (new_form CreatePostForm [] req)); step_view;
    [|discriminate].
  destruct (identity st) as [u|]; simpl; [|discriminate].
  unfold insert_post.
  destruct (existsb _ (blog_posts (db st))) eqn:E; simpl; [discriminate|].
  intros _. split; [reflexivity|]. split; [now exists u|].
  intros q Hin Ht. apply title_not_taken_here in E. apply E.
  rewrite <- Ht. now apply in_map.
Qed.

(** Rewriting the row with key [i] in place. *)
Lemma find_rewritten (l : list BlogPost.t) (p' old : BlogPost.t) :
  find (fun q => BlogPost.id q =? BlogPost.id p') l = Some old ->
  find (fun q => BlogPost.id q =? BlogPost.id p')
    (map (fun q => if BlogPost.id q =? BlogPost.id p' then p' else q) l) = Some p'.
Proof.
  induction l as [|q l IH]; simpl; [discriminate|].
  destruct (BlogPost.id q =? BlogPost.id p') eqn:E.
  - intros _. now rewrite Z.eqb_refl.
  - rewrite E. exact IH.
Qed.

Lemma find_other (l : list BlogPost.t) (p' : BlogPost.t) (j : Z) :
  j <> BlogPost.id p' ->
  find (fun q => BlogPost.id q =? j)
    (map (fun q => if BlogPost.id q =? BlogPost.id p' then p' else q) l)
  = find (fun q => BlogPost.id q =? j) l.
Proof.
  intros Hj. induction l as [|q l IH]; simpl; [reflexivity|].
  destruct (BlogPost.id q =? BlogPost.id p') eqn:E.
  - apply Z.eqb_eq in E.
    destruct (BlogPost.id p' =? j) eqn:E1; [apply Z.eqb_eq in E1; congruence|].
    destruct (BlogPost.id q =? j) eqn:E2; [apply Z.eqb_eq in E2; congruence|].
    exact IH.
  - destruct (BlogPost.id q =? j); [reflexivity | exact IH].
Qed.

Lemma ids_rewritten (l : list BlogPost.t) (p' : BlogPost.t) :
  map BlogPost.id (map (fun q => if BlogPost.id q =? BlogPost.id p' then p' else q) l)
  = map BlogPost.id l.
Proof.
  induction l as [|q l IH]; simpl; [reflexivity|]. rewrite IH. f_equal.
  destruct (BlogPost.id q =? BlogPost.id p') eqn:E; [|reflexivity].
  apply Z.eqb_eq in E. congruence.
Qed.

Lemma others_rewritten (l : list BlogPost.t) (p' q : BlogPost.t) :
  BlogPost.id q <> BlogPost.id p' ->
  In q (map (fun x => if BlogPost.id x =? BlogPost.id p' then p' else x) l) <-> In q l.
Proof.
  intros Hq. induction l as [|x l IH]; simpl; [tauto|].
  destruct (BlogPost.id x =? BlogPost.id p') eqn:E.
  - apply Z.eqb_eq in E. split.
    + intros [H|H]; [subst; congruence | right; now apply IH].
    + intros [H|H]; [subst; congruence | right; now apply IH].
  - rewrite IH. tauto.
Qed.

(** What a committed UPDATE of one post changes. *)
Lemma update_post_frame (s s' : Store) (p' old : BlogPost.t) :
  update_post s p' = Ok s' ->
  BlogPost_query_get s (BlogPost.id p') = Some old ->
  BlogPost_query_get s' (BlogPost.id p') = Some p'
  /\ (forall j, j <> BlogPost.id p' -> BlogPost_query_get s' j = BlogPost_query_get s j)
  /\ (forall q, BlogPost.id q <> BlogPost.id p' ->
        (In q (blog_posts s') <-> In q (blog_posts s)))
  /\ map BlogPost.id (blog_posts s') = map BlogPost.id (blog_posts s)
  /\ users s' = users s
  /\ comments s' = comments s.
Proof.
  unfold update_post. destruct (existsb _ (blog_posts s)); [discriminate|].
  intros H Hq. inversion H; subst s'; clear H. unfold BlogPost_query_get in *. simpl.
  split; [exact (find_rewritten _ _ _ Hq)|].
  split; [intros j Hj; now apply find_other|].
  split; [intros q Hne; now apply others_rewritten|].
  split; [apply ids_rewritten|]. split; reflexivity.
Qed.

(** The row that [edit_post] commits. *)
Lemma edit_post_commit (s s' : Store) (old : BlogPost.t) (author : option Z)
    (ti su bo im : string) :
  BlogPost_query_get s (BlogPost.id old) = Some old ->
  update_post s (BlogPost.mk (BlogPost.id old) author ti su (BlogPost.date old) bo im)
  = Ok s' ->
  exists new : BlogPost.t,
    BlogPost_query_get s' (BlogPost.id old) = Some new
    /\ BlogPost.id new = BlogPost.id old
    /\ BlogPost.date new = BlogPost.date old
    /\ BlogPost.title new = ti
    /\ BlogPost.subtitle new = su
    /\ BlogPost.img_url new = im
    /\ BlogPost.body new = bo
    /\ BlogPost.author_id new = author
    /\ (forall j, j <> BlogPost.id old ->
          BlogPost_query_get s' j = BlogPost_query_get s j)
    /\ (forall q, BlogPost.id q <> BlogPost.id old ->
          (In q (blog_posts s') <-> In q (blog_posts s)))
    /\ map BlogPost.id (blog_posts s') = map BlogPost.id (blog_posts s)
    /\ users s' = users s
    /\ comments s' = comments s.
Proof.
  intros Hq Hup.
  destruct (update_post_frame _ _ _ old Hup Hq) as (F1 & F2 & F3 & F4 & F5 & F6).
  eexists. split; [exact F1|]. simpl in *.
  repeat (split; [reflexivity|]). auto.
Qed.

(** C10. Whenever a request to [/edit-post/<post_id>] is answered by the
    redirect to the post's page, the row with that key existed, and the row
    stored under it afterwards has the same id and the same date, with
    title, subtitle, image, author and body taken from the form; every
    lookup of another key, every other row of [blog_posts], the order of the
    keys, [users], [comments] and the session are as before. *)
Theorem edit_post_frame (st : State) (req : Request) (post_id i : Z) :
  0 <= post_id ->
  let r := full_dispatch_request (app the_main) st (AtInt "/edit-post/" post_id) req in
  response r = redirect (url_for (to_show_post i)) ->
  exists (old new : BlogPost.t),
    i = post_id
    /\ BlogPost_query_get (db st) post_id = Some old
    /\ BlogPost_query_get (db (after r)) post_id = Some new
    /\ BlogPost.id new = BlogPost.id old
    /\ BlogPost.date new = BlogPost.date old
    /\ BlogPost.title new = data "title" (edit_form_for old req)
    /\ BlogPost.subtitle new = data "subtitle" (edit_form_for old req)
    /\ BlogPost.img_url new = data "img_url" (edit_form_for old req)
    /\ BlogPost.body new = data "body" (edit_form_for old req)
    /\ ((exists a, author_data (edit_form_for old req) = Some (PyUser a)
                   /\ BlogPost.author_id new = Some a)
        \/ (author_data (edit_form_for old req) = Some PyNone
            /\ BlogPost.author_id new = None))
    /\ (forall j, j <> post_id ->
          BlogPost_query_get (db (after r)) j = BlogPost_query_get (db st) j)
    /\ (forall q, BlogPost.id q <> post_id ->
          (In q (blog_posts (db (after r))) <-> In q (blog_posts (db st))))
    /\ map BlogPost.id (blog_posts (db (after r))) = map BlogPost.id (blog_posts (db st))
    /\ users (db (after r)) = users (db st)
    /\ comments (db (after r)) = comments (db st)
    /\ session (after r) = session st.
Proof.
  intros Hn. cbv zeta. rewrite dispatch_edit_post by assumption.
  unfold edit_post. step_view.
  destruct (bindable post_id); simpl; [|discriminate].
  destruct (BlogPost_query_get (db st) post_id) as [old|] eqn:Hq; simpl;
    [|discriminate].
  pose proof (query_get_id _ _ _ Hq) as Hid.
  destruct (validate_on_submit validate (edit_form_for old req)); simpl; [|discriminate].
  unfold assign_author.
  destruct (author_data (edit_form_for old req)) as [[| s | a]|] eqn:Ha; step_view;
    try discriminate;
    (destruct (update_post (db st) _) as [s'|e] eqn:Hup; simpl; [|discriminate]);
    intros Hr; inversion Hr; subst i; rewrite <- Hid in Hq;
    destruct (edit_post_commit _ _ _ _ _ _ _ _ Hq Hup)
      as (new & G1 & G2 & G3 & G4 & G5 & G6 & G7 & G8 & G9 & G10 & G11 & G12 & G13);
    rewrite Hid in *; exists old, new;
    repeat (split; [solve [assumption | reflexivity | congruence | eauto] |]);
    reflexivity.
Qed.

(** *** The guard and what the URL map holds *)

(** [admin_only] itself answers 403 to a logged-in user other than user 1,
    and lets the reading of [current_user.id] fail for the anonymous user. *)
Lemma decorated_function_forbids (f : View) (st : State) (req : Request) (u : User.t) :
  identity st = Some u -> User.id u <> 1 ->
  run (decorated_function f req) st = mkResult st [] (abort 403).
Proof.
  intros Hid Hne. unfold decorated_function. step_view. rewrite Hid.
  destruct (User.id u =? 1) eqn:E; [apply Z.eqb_eq in E; contradiction|].
  reflexivity.
Qed.

Lemma decorated_function_anonymous (f : View) (st : State) (req : Request) :
  identity st = None ->
  run (decorated_function f req) st = mkResult st [] (InternalServerError AttributeError).
Proof. intros Hid. unfold decorated_function. step_view. now rewrite Hid. Qed.

Lemma decorated_function_admin (f : View) (st : State) (req : Request) (u : User.t) :
  identity st = Some u -> User.id u = 1 ->
  run (decorated_function f req) st = run (f req) st.
Proof.
  intros Hid He. unfold decorated_function, run, bind, current_user. rewrite Hid, He.
  simpl. destruct (f req st) as [[[r st'] fl]|e]; reflexivity.
Qed.

(** Every request ends in one of the registered functions, as written, or
    in a routing error. *)
Lemma dispatch_cases (st : State) (u : Url) (req : Request) (P : Result -> Prop) :
  P (mkResult st [] (abort 404)) ->
  P (mkResult st [] (abort 405)) ->
  P (run (get_all_posts req) st) ->
  P (run (register validate generate_password_hash req) st) ->
  P (run (login validate check_password_hash req) st) ->
  P (run (logout req) st) ->
  (forall n, u = AtInt "/post/" n -> P (run (show_post validate n req) st)) ->
  P (run (about req) st) ->
  P (run (contact req) st) ->
  P (run (add_new_post validate req) st) ->
  (forall n, P (run (edit_post validate author_data n req) st)) ->
  (forall n, P (run (delete_post n req) st)) ->
  P (full_dispatch_request (app the_main) st u req).
Proof.
  intros H404 H405 Hidx Hreg Hlogin Hlogout Hshow Habout Hcontact Hnew Hedit Hdel.
  unfold full_dispatch_request, main, route, app.
  destruct u as [q | q n];
    cbn -[String.eqb Z.leb get_all_posts register login logout show_post about
          contact add_new_post edit_post delete_post run].
  - repeat match goal with
      | |- context [String.eqb ?a q] => destruct (String.eqb a q) eqn:?;
          cbn -[String.eqb Z.leb get_all_posts register login logout show_post about
                contact add_new_post edit_post delete_post run]
      end;
      try (destruct (method req); simpl); auto.
  - repeat match goal with
      | |- context [String.eqb ?a q] => destruct (String.eqb_spec a q);
          cbn -[String.eqb Z.leb get_all_posts register login logout show_post about
                contact add_new_post edit_post delete_post run]
      | |- context [0 <=? n] => destruct (0 <=? n);
          cbn -[String.eqb Z.leb get_all_posts register login logout show_post about
                contact add_new_post edit_post delete_post run]
      end;
      try (destruct (method req); simpl); subst; auto.
Qed.

(** *** Comments *)

Lemma le_fold_max (l : list Z) (x : Z) : In x l -> x <= fold_right Z.max 0 l.
Proof.
  induction l as [|y l IH]; simpl; [tauto|].
  intros [->|H]; [lia | specialize (IH H); lia].
Qed.

Lemma next_id_fresh (l : list Z) : ~ In (next_id l) l.
Proof. intros H. apply le_fold_max in H. unfold next_id in H. lia. Qed.

Lemma orphan_keeps_ids (i : Z) (l : list Comment.t) :
  map Comment.id (map (orphan i) l) = map Comment.id l.
Proof.
  induction l as [|c l IH]; simpl; [reflexivity|]. rewrite IH. f_equal.
  unfold orphan. destruct (Comment.parent_post_id c) as [j|]; [|reflexivity].
  destruct (j =? i); reflexivity.
Qed.

Ltac split_matches :=
  repeat match goal with
    | |- context [match ?x with _ => _ end] =>
        lazymatch x with
        | context [match _ with _ => _ end] => fail
        | _ => destruct x eqn:?; simpl
        end
    end.

Lemma register_same_comment_ids st req :
  same_comment_ids st (run (register validate generate_password_hash req) st).
Proof.
  unfold same_comment_ids, register, insert_user. step_view.
  split_matches; reflexivity.
Qed.

Lemma login_same_comment_ids st req :
  same_comment_ids st (run (login validate check_password_hash req) st).
Proof. unfold same_comment_ids, login. step_view. split_matches; reflexivity. Qed.

Lemma add_new_post_same_comment_ids st req :
  same_comment_ids st (run (add_new_post validate req) st).
Proof.
  unfold same_comment_ids, add_new_post, insert_post. step_view.
  split_matches; reflexivity.
Qed.

Lemma edit_post_same_comment_ids st n req :
  same_comment_ids st (run (edit_post validate author_data n req) st).
Proof.
  unfold same_comment_ids, edit_post, assign_author, update_post. step_view.
  split_matches; reflexivity.
Qed.

Lemma delete_post_same_comment_ids st n req :
  same_comment_ids st (run (delete_post n req) st).
Proof.
  unfold same_comment_ids, delete_post. step_view.
  split_matches; first [apply orphan_keeps_ids | reflexivity].
Qed.

(** What [show_post] does to [comments]: nothing, or one appended row whose
    commenter is the logged-in user and whose parent is the looked-up
    post. *)
Lemma show_post_comments st n req :
  let r := run (show_post validate n req) st in
  comments (db (after r)) = comments (db st)
  \/ exists u,
       identity st = Some u
       /\ validate_on_submit validate (new_form CommentForm [] req) = true
       /\ comments (db (after r))
          = (comments (db st)
             ++ [Comment.mk (next_id (map Comment.id (comments (db st))))
                   (Some (User.id u))
                   (option_map BlogPost.id (BlogPost_query_get (db st) n))
                   (data "comment_text" (new_form CommentForm [] req))])%list
       /\ users (db (after r)) = users (db st)
       /\ blog_posts (db (after r)) = blog_posts (db st).
Proof.
  cbv zeta. unfold show_post. step_view.
  destruct (bindable n); simpl; [|now left].
  destruct (validate_on_submit validate (new_form CommentForm [] req)); simpl; [|now left].
  destruct (identity st) as [u|] eqn:Hid; simpl; [|now left].
  right. exists u. repeat split.
Qed.

(** C3 (as amended). A comment row whose key is new after a request was
    created by a comment submission to [/post/<post_id>]: its commenter is
    the logged-in user, who is a row of [users], and, whenever [post_id] is
    the key of a stored post, its parent is that post, which is still
    stored. *)
Theorem created_comment_links (st : State) (u : Url) (req : Request) (c : Comment.t) :
  let r := full_dispatch_request (app the_main) st u req in
  In c (comments (db (after r))) ->
  ~ In (Comment.id c) (map Comment.id (comments (db st))) ->
  exists (post_id : Z) (commenter : User.t),
    u = AtInt "/post/" post_id
    /\ identity st = Some commenter
    /\ Comment.commenter_id c = Some (User.id commenter)
    /\ User_query_get (db (after r)) (User.id commenter) = Some commenter
    /\ (forall p, BlogPost_query_get (db st) post_id = Some p ->
          Comment.parent_post_id c = Some post_id
          /\ BlogPost_query_get (db (after r)) post_id = Some p).
Proof.
  cbv zeta. apply dispatch_cases.
  1-6, 8-10:
    intros Hin Hnew; exfalso; apply Hnew;
    first
      [ exact (in_map Comment.id _ _ Hin)
      | rewrite <- register_same_comment_ids; exact (in_map Comment.id _ _ Hin)
      | rewrite <- login_same_comment_ids; exact (in_map Comment.id _ _ Hin)
      | rewrite <- add_new_post_same_comment_ids; exact (in_map Comment.id _ _ Hin) ].
  2-3:
    intros n Hin Hnew; exfalso; apply Hnew;
    first
      [ rewrite <- (edit_post_same_comment_ids st n req); exact (in_map Comment.id _ _ Hin)
      | rewrite <- (delete_post_same_comment_ids st n req); exact (in_map Comment.id _ _ Hin) ].
  intros n Hu Hin Hnew.
  destruct (show_post_comments st n req) as [Hsame | (w & Hid & Hv & Hc & Hus & Hps)].
  - exfalso. apply Hnew. rewrite <- Hsame. exact (in_map Comment.id _ _ Hin).
  - rewrite Hc in Hin. apply in_app_or in Hin. destruct Hin as [Hin | [<- | []]].
    + exfalso. apply Hnew. exact (in_map Comment.id _ _ Hin).
    + exists n, w. simpl. split; [assumption|]. split; [assumption|].
      split; [reflexivity|].
      split.
      * unfold User_query_get. rewrite Hus. unfold identity in Hid.
        destruct (session st) as [uid|]; [|discriminate].
        pose proof (load_user_id _ _ _ Hid) as [<- _]. exact Hid.
      * intros p Hp. rewrite Hp. simpl. rewrite (query_get_id _ _ _ Hp).
        split; [reflexivity|]. unfold BlogPost_query_get in *. now rewrite Hps.
Qed.

(** C2 (as amended). When no stored post has the requested id, a request to
    [/post/<post_id>] that submits no comment leaves the state as it was and
    is answered as follows: for an id from 0 up to the largest 64-bit key,
    not by a 404 but with what the post template gives for no post; for a
    negative id, by the 404 of the router, which matches no rule; for a
    larger id, by the escaped [OverflowError] of the query.  In particular,
    once [/delete/<post_id>] has removed a stored post, the lookup of its id
    is empty and the next view of [/post/<post_id>] hands no post to the
    template. *)
Theorem show_post_absent (st : State) (req req_d : Request) (post_id : Z) :
  validate_on_submit validate (new_form CommentForm [] req) = false ->
  method req_d = GET ->
  let show st := full_dispatch_request (app the_main) st (AtInt "/post/" post_id) req in
  let d := full_dispatch_request (app the_main) st (AtInt "/delete/" post_id) req_d in
  (BlogPost_query_get (db st) post_id = None ->
     show st = mkResult st []
                 (if post_id <? 0 then abort 404
                  else if post_id <? 2 ^ 63 then render_template (post_html None)
                  else InternalServerError OverflowError))
  /\ (forall p, 0 <= post_id < 2 ^ 63 ->
        BlogPost_query_get (db st) post_id = Some p ->
        response d = redirect (url_for to_get_all_posts)
        /\ BlogPost_query_get (db (after d)) post_id = None
        /\ show (after d) = mkResult (after d) [] (render_template (post_html None))).
Proof.
  intros Hv Hm. cbv zeta.
  assert (Habsent : forall s, 0 <= post_id < 2 ^ 63 ->
            BlogPost_query_get (db s) post_id = None ->
            full_dispatch_request (app the_main) s (AtInt "/post/" post_id) req
            = mkResult s [] (render_template (post_html None))).
  { intros s Hn Hq. rewrite dispatch_show_post by lia.
    unfold show_post. step_view. rewrite (bindable_in_range _ Hn). simpl.
    rewrite Hv, Hq. reflexivity. }
  split.
  - intros Hq. destruct (Z.ltb_spec post_id 0) as [Hneg | Hpos].
    + unfold full_dispatch_request. simpl.
      rewrite (proj2 (Z.leb_gt _ _) Hneg). reflexivity.
    + destruct (Z.ltb_spec post_id (2 ^ 63)) as [Hsmall | Hlarge].
      * apply Habsent; [lia | assumption].
      * rewrite dispatch_show_post by assumption.
        unfold show_post. step_view. now rewrite (bindable_too_large _ Hlarge).
  - intros p Hn Hp. rewrite dispatch_delete by (assumption || lia).
    unfold delete_post. step_view. rewrite (bindable_in_range _ Hn). simpl.
    rewrite Hp. simpl.
    assert (Hgone : BlogPost_query_get
                      (delete_post_row (db st) p) post_id = None).
    { unfold BlogPost_query_get, delete_post_row. simpl.
      rewrite (query_get_id _ _ _ Hp).
      destruct (find _ (filter _ (blog_posts (db st)))) as [q|] eqn:E; [|reflexivity].
      apply find_some in E. destruct E as [Hin Hq].
      apply filter_In in Hin. destruct Hin as [_ Hf]. rewrite Hq in Hf. discriminate. }
    split; [reflexivity|]. split; [exact Hgone|].
    apply (Habsent (mkState (delete_post_row (db st) p) (session st))); assumption.
Qed.

(** ** Further properties of the views *)

(** Every request ends in one of the registered functions, or in a routing
    error; this version records which URL and method lead where. *)
Lemma dispatch_cases_url (st : State) (u : Url) (req : Request) (P : Result -> Prop) :
  P (mkResult st [] (abort 404)) ->
  P (mkResult st [] (abort 405)) ->
  (u = At "/" -> method req = GET -> P (run (get_all_posts req) st)) ->
  (u = At "/register" -> P (run (register validate generate_password_hash req) st)) ->
  (u = At "/login" -> P (run (login validate check_password_hash req) st)) ->
  (u = At "/logout" -> method req = GET -> P (run (logout req) st)) ->
  (forall n, u = AtInt "/post/" n -> 0 <= n -> P (run (show_post validate n req) st)) ->
  (u = At "/about" -> method req = GET -> P (run (about req) st)) ->
  (u = At "/contact" -> method req = GET -> P (run (contact req) st)) ->
  (u = At "/new-post" -> P (run (add_new_post validate req) st)) ->
  (forall n, u = AtInt "/edit-post/" n -> 0 <= n ->
     P (run (edit_post validate author_data n req) st)) ->
  (forall n, u = AtInt "/delete/" n -> 0 <= n -> method req = GET ->
     P (run (delete_post n req) st)) ->
  P (full_dispatch_request (app the_main) st u req).
Proof.
  intros H404 H405 Hidx Hreg Hlogin Hlogout Hshow Habout Hcontact Hnew Hedit Hdel.
  unfold full_dispatch_request, main, route, app.
  destruct u as [q | q n];
    cbn -[String.eqb Z.leb get_all_posts register login logout show_post about
          contact add_new_post edit_post delete_post run].
  - repeat match goal with
      | |- context [String.eqb ?a q] => destruct (String.eqb_spec a q);
          cbn -[String.eqb Z.leb get_all_posts register login logout show_post about
                contact add_new_post edit_post delete_post run]
      end;
      try (destruct (method req) eqn:Hm; simpl); subst; auto.
  - repeat match goal with
      | |- context [String.eqb ?a q] => destruct (String.eqb_spec a q);
          cbn -[String.eqb Z.leb get_all_posts register login logout show_post about
                contact add_new_post edit_post delete_post run]
      | |- context [0 <=? n] => destruct (Z.leb_spec 0 n);
          cbn -[String.eqb Z.leb get_all_posts register login logout show_post about
                contact add_new_post edit_post delete_post run]
      end;
      try (destruct (method req) eqn:Hm; simpl); subst; auto.
Qed.

Lemma find_none_existsb {A} (f : A -> bool) (l : list A) :
  find f l = None -> existsb f l = false.
Proof.
  induction l as [|x l IH]; simpl; [reflexivity|].
  destruct (f x); [discriminate | exact IH].
Qed.

Lemma find_app_last {A} (f : A -> bool) (l : list A) (x : A) :
  find f l = None -> f x = true -> find f (l ++ [x]) = Some x.
Proof.
  induction l as [|y l IH]; simpl; intros Hn Hx.
  - now rewrite Hx.
  - destruct (f y); [discriminate | now apply IH].
Qed.

Lemma find_fresh_id (l : list User.t) :
  find (fun u => User.id u =? next_id (map User.id l)) l = None.
Proof.
  destruct (find _ l) as [u|] eqn:E; [|reflexivity].
  apply find_some in E. destruct E as [Hin He]. apply Z.eqb_eq in He.
  exfalso. apply (next_id_fresh (map User.id l)). rewrite <- He. now apply in_map.
Qed.

(** The successful path of [register]. *)
Lemma register_fresh (st : State) (req : Request) :
  let form := new_form RegisterForm [] req in
  validate_on_submit validate form = true ->
  User_filter_by_email_first (db st) (data "email" form) = None ->
  let u := User.mk (next_id (map User.id (users (db st))))
             (data "email" form)
             (generate_password_hash (data "password" form) (salt req))
             (data "username" form) in
  let r := full_dispatch_request (app the_main) st (At "/register") req in
  r = mkResult
        (mkState (mkStore (users (db st) ++ [u]) (blog_posts (db st)) (comments (db st)))
                 (Some (User.id u)))
        [] (redirect (url_for to_get_all_posts))
  /\ ~ In (User.id u) (map User.id (users (db st)))
  /\ identity (after r) = Some u
  /\ User_filter_by_email_first (db (after r)) (User.email u) = Some u.
Proof.
  cbv zeta. intros Hv Hnone. rewrite dispatch_register.
  unfold register. rewrite Hv. step_view. rewrite Hnone. simpl.
  unfold insert_user. unfold User_filter_by_email_first in Hnone.
  rewrite (find_none_existsb _ _ Hnone). simpl.
  split; [reflexivity|]. split; [apply next_id_fresh|].
  split.
  - unfold identity, load_user, User_query_get. simpl.
    apply find_app_last; [apply find_fresh_id | apply Z.eqb_refl].
  - unfold User_filter_by_email_first. simpl.
    apply find_app_last; [exact Hnone | apply String.eqb_refl].
Qed.

(** X1. A validated registration with an email that no stored user has is
    answered by the redirect to the listing; one user row is appended, with
    a key no other row has, the submitted email and user name, and the
    digest of the submitted password; the session is the new user, both by
    key and by email lookup. *)
Theorem register_success (st : State) (req : Request) :
  let form := new_form RegisterForm [] req in
  validate_on_submit validate form = true ->
  User_filter_by_email_first (db st) (data "email" form) = None ->
  let u := User.mk (next_id (map User.id (users (db st))))
             (data "email" form)
             (generate_password_hash (data "password" form) (salt req))
             (data "username" form) in
  let r := full_dispatch_request (app the_main) st (At "/register") req in
  r = mkResult
        (mkState (mkStore (users (db st) ++ [u]) (blog_posts (db st)) (comments (db st)))
                 (Some (User.id u)))
        [] (redirect (url_for to_get_all_posts))
  /\ ~ In (User.id u) (map User.id (users (db st)))
  /\ identity (after r) = Some u
  /\ User_filter_by_email_first (db (after r)) (User.email u) = Some u.
Proof. exact (register_fresh st req). Qed.

(** X2. [/register] never ends in an escaped exception: the lookup by email
    comes before the INSERT, so the unique constraint cannot fire. *)
Theorem register_never_fails (st : State) (req : Request) (e : exn) :
  response (full_dispatch_request (app the_main) st (At "/register") req)
  <> InternalServerError e.
Proof.
  rewrite dispatch_register. unfold register.
  destruct (validate_on_submit validate (new_form RegisterForm [] req)); step_view;
    [|discriminate].
  destruct (User_filter_by_email_first (db st) _) eqn:Hf; simpl; [discriminate|].
  unfold insert_user. unfold User_filter_by_email_first in Hf.
  rewrite (find_none_existsb _ _ Hf). simpl. discriminate.
Qed.

(** X3. Behind [admin_only], a function cannot touch the state unless the
    session resolves to user 1: any other logged-in user gets a 403, the
    anonymous visitor an escaped [AttributeError]; in both cases the state
    is as before and nothing is flashed. *)
Theorem admin_only_protects_state (h : Handler) (n : Z) (st : State) (req : Request) :
  (forall u, identity st = Some u -> User.id u <> 1) ->
  call (admin_only h) n st req
  = mkResult st []
      (match identity st with
       | Some _ => abort 403
       | None => InternalServerError AttributeError
       end).
Proof.
  intros Hno.
  destruct (identity st) as [u|] eqn:Hid.
  - specialize (Hno u eq_refl).
    destruct h as [f | f]; simpl; now rewrite (decorated_function_forbids _ _ _ u Hid Hno).
  - destruct h as [f | f]; simpl; now rewrite (decorated_function_anonymous _ _ _ Hid).
Qed.

(** X4. For user 1 the [admin_only] wrapper is transparent. *)
Theorem admin_only_transparent (h : Handler) (n : Z) (st : State) (req : Request)
    (u : User.t) :
  identity st = Some u -> User.id u = 1 ->
  call (admin_only h) n st req = call h n st req.
Proof.
  intros Hid He. destruct h as [f | f]; simpl;
    now rewrite (decorated_function_admin _ _ _ u Hid He).
Qed.

Lemma get_not_submitted (F : FormClass) (kw : list (string * PyValue)) (req : Request) :
  method req = GET -> validate_on_submit validate (new_form F kw req) = false.
Proof. intros H. unfold validate_on_submit, new_form. now rewrite H. Qed.

(** X5. A GET request changes nothing and flashes nothing, unless it goes to
    [/logout] or [/delete/<post_id>]. *)
Theorem get_is_read_only (st : State) (u : Url) (req : Request) :
  method req = GET ->
  u <> At "/logout" ->
  (forall n, u <> AtInt "/delete/" n) ->
  let r := full_dispatch_request (app the_main) st u req in
  after r = st /\ flashed r = [].
Proof.
  intros Hm Hlo Hdel. cbv zeta. apply dispatch_cases_url; try (split; reflexivity).
  - intros _. unfold register. rewrite (get_not_submitted _ _ _ Hm). split; reflexivity.
  - intros _. unfold login. rewrite (get_not_submitted _ _ _ Hm). split; reflexivity.
  - intros Hu. contradiction.
  - intros n _ _. unfold show_post. step_view.
    destruct (bindable n); simpl; [|split; reflexivity].
    rewrite (get_not_submitted _ _ _ Hm). split; reflexivity.
  - intros _. unfold add_new_post. rewrite (get_not_submitted _ _ _ Hm).
    split; reflexivity.
  - intros n _ _. unfold edit_post. step_view.
    destruct (bindable n); simpl; [|split; reflexivity].
    destruct (BlogPost_query_get (db st) n) as [p|]; simpl; [|split; reflexivity].
    unfold edit_form_for. rewrite (get_not_submitted _ _ _ Hm). split; reflexivity.
  - intros n Hu. exfalso. exact (Hdel n Hu).
Qed.

(** X6. The routes declared without [methods] accept GET only: a POST to
    [/], [/logout], [/about], [/contact] or [/delete/<post_id>] is answered
    405 and changes nothing; in particular a POST cannot delete a post. *)
Theorem get_only_routes_refuse_post (st : State) (req : Request) (n : Z) :
  method req = POST ->
  0 <= n ->
  let refused := mkResult st [] (abort 405) in
  full_dispatch_request (app the_main) st (At "/") req = refused
  /\ full_dispatch_request (app the_main) st (At "/logout") req = refused
  /\ full_dispatch_request (app the_main) st (At "/about") req = refused
  /\ full_dispatch_request (app the_main) st (At "/contact") req = refused
  /\ full_dispatch_request (app the_main) st (AtInt "/delete/" n) req = refused.
Proof.
  intros Hm Hn. cbv zeta. unfold full_dispatch_request. simpl.
  rewrite (proj2 (Z.leb_le _ _) Hn), Hm. simpl. repeat split.
Qed.

(** X7. The [int] converter of the three rules with [<int:post_id>] matches
    no negative number: such a request is answered 404 and changes
    nothing. *)
Theorem negative_post_id_not_found (st : State) (req : Request) (n : Z) :
  n < 0 ->
  let missing := mkResult st [] (abort 404) in
  full_dispatch_request (app the_main) st (AtInt "/post/" n) req = missing
  /\ full_dispatch_request (app the_main) st (AtInt "/edit-post/" n) req = missing
  /\ full_dispatch_request (app the_main) st (AtInt "/delete/" n) req = missing.
Proof.
  intros Hn. cbv zeta. unfold full_dispatch_request. simpl.
  rewrite (proj2 (Z.leb_gt _ _) Hn). simpl. repeat split.
Qed.

(** X8. [/edit-post/<post_id>] for an id that is not stored ends in an
    escaped exception, on GET and on POST alike, and changes nothing: an
    [AttributeError] (the title is read from no post) for an id up to the
    largest 64-bit key, the [OverflowError] of the query for a larger
    one. *)
Theorem edit_post_absent (st : State) (req : Request) (n : Z) :
  0 <= n ->
  BlogPost_query_get (db st) n = None ->
  full_dispatch_request (app the_main) st (AtInt "/edit-post/" n) req
  = mkResult st []
      (InternalServerError (if n <? 2 ^ 63 then AttributeError else OverflowError)).
Proof.
  intros Hn Hq. rewrite dispatch_edit_post by assumption.
  unfold edit_post.
  destruct (Z.ltb_spec n (2 ^ 63)) as [Hsmall | Hlarge]; step_view.
  - rewrite (bindable_in_range n (conj Hn Hsmall)). simpl. now rewrite Hq.
  - now rewrite (bindable_too_large _ Hlarge).
Qed.

(** X9. [/delete/<post_id>] for an id that is not stored ends in an escaped
    exception and changes nothing: an [UnmappedInstanceError] (no post is
    handed to the session) for an id up to the largest 64-bit key, the
    [OverflowError] of the query for a larger one. *)
Theorem delete_post_absent (st : State) (req : Request) (n : Z) :
  0 <= n ->
  method req = GET ->
  BlogPost_query_get (db st) n = None ->
  full_dispatch_request (app the_main) st (AtInt "/delete/" n) req
  = mkResult st []
      (InternalServerError
         (if n <? 2 ^ 63 then UnmappedInstanceError else OverflowError)).
Proof.
  intros Hn Hm Hq. rewrite dispatch_delete by assumption.
  unfold delete_post.
  destruct (Z.ltb_spec n (2 ^ 63)) as [Hsmall | Hlarge]; step_view.
  - rewrite (bindable_in_range n (conj Hn Hsmall)). simpl. now rewrite Hq.
  - now rewrite (bindable_too_large _ Hlarge).
Qed.

(** *** Which request can change what *)

Ltac unfold_views :=
  unfold get_all_posts, register, login, logout, show_post, about, contact,
    add_new_post, edit_post, delete_post, assign_author, edit_form_for,
    insert_user, insert_post, insert_comment, update_post, delete_post_row.

(** X10. No request modifies or removes a user row: the [users] table after
    a request is the table before, followed by at most one new row, and a
    new row can only come from [/register]. *)
Theorem users_only_grow (st : State) (u : Url) (req : Request) :
  let r := full_dispatch_request (app the_main) st u req in
  exists l : list User.t,
    users (db (after r)) = (users (db st) ++ l)%list
    /\ (l = [] \/ (u = At "/register" /\ exists x, l = [x])).
Proof.
  cbv zeta. apply dispatch_cases_url; intros;
    unfold_views; step_view; split_matches;
    first
      [ exists []; split; [now rewrite app_nil_r | now left]
      | eexists [_]; split; [reflexivity | right; split; [assumption | eauto]] ].
Qed.

(** X11. Changes are confined to their routes: the session changes only at
    [/register], [/login] and [/logout]; [blog_posts] only at [/new-post],
    [/edit-post/<id>] and [/delete/<id>]; [comments] only at [/post/<id>]
    and [/delete/<id>]. *)
Theorem changes_are_confined (st : State) (u : Url) (req : Request) :
  let r := full_dispatch_request (app the_main) st u req in
  (session (after r) = session st
   \/ u = At "/register" \/ u = At "/login" \/ u = At "/logout")
  /\ (blog_posts (db (after r)) = blog_posts (db st)
      \/ u = At "/new-post"
      \/ (exists n, u = AtInt "/edit-post/" n)
      \/ (exists n, u = AtInt "/delete/" n))
  /\ (comments (db (after r)) = comments (db st)
      \/ (exists n, u = AtInt "/post/" n)
      \/ (exists n, u = AtInt "/delete/" n)).
Proof.
  cbv zeta. apply dispatch_cases_url; intros;
    try (repeat split; now left);
    subst u; repeat split; eauto 6;
    left; unfold_views; step_view; split_matches; reflexivity.
Qed.

Lemma orphan_fields (i : Z) (c : Comment.t) :
  Comment.id (orphan i c) = Comment.id c
  /\ Comment.commenter_id (orphan i c) = Comment.commenter_id c
  /\ Comment.text (orphan i c) = Comment.text c.
Proof.
  unfold orphan. destruct (Comment.parent_post_id c) as [j|]; [|auto].
  destruct (j =? i); auto.
Qed.

(** X12. No request removes a comment or rewrites its key, commenter or
    text: every comment stored before a request is matched afterwards by a
    comment with the same three fields. *)
Theorem comments_persist (st : State) (u : Url) (req : Request) (c : Comment.t) :
  In c (comments (db st)) ->
  let r := full_dispatch_request (app the_main) st u req in
  exists c',
    In c' (comments (db (after r)))
    /\ Comment.id c' = Comment.id c
    /\ Comment.commenter_id c' = Comment.commenter_id c
    /\ Comment.text c' = Comment.text c.
Proof.
  intros Hin. cbv zeta. apply dispatch_cases; intros;
    unfold_views; step_view; split_matches;
    first
      [ exists c; split; [assumption | auto]
      | exists c; split; [apply in_or_app; now left | auto]
      | eexists (orphan _ c); split; [apply in_map; exact Hin | apply orphan_fields] ].
Qed.

(** *** Deleting *)

Lemma orphaned_parent (i : Z) (c : Comment.t) :
  Comment.parent_post_id (orphan i c) <> Some i.
Proof.
  unfold orphan. destruct (Comment.parent_post_id c) as [j|] eqn:E.
  - destruct (j =? i) eqn:Ej; simpl; [discriminate|].
    rewrite E. intros H. inversion H. subst. rewrite Z.eqb_refl in Ej. discriminate.
  - rewrite E. discriminate.
Qed.

Lemma orphan_other (i : Z) (c : Comment.t) :
  Comment.parent_post_id c <> Some i -> orphan i c = c.
Proof.
  unfold orphan. destruct (Comment.parent_post_id c) as [j|]; [|reflexivity].
  destruct (j =? i) eqn:Ej; [|reflexivity].
  apply Z.eqb_eq in Ej. subst. intros H. now contradiction H.
Qed.

(** X13. Deleting a stored post through [/delete/<post_id>], for an id from
    0 up to the largest 64-bit key, is answered by the redirect to the
    listing; afterwards the stored posts are exactly
    the earlier ones with another id, no comment refers to the deleted
    post, the comments of other posts are untouched, the keys of
    [comments] are the same, and [users] and the session are as before. *)
Theorem delete_post_effect (st : State) (req : Request) (n : Z) (p : BlogPost.t) :
  0 <= n < 2 ^ 63 ->
  method req = GET ->
  BlogPost_query_get (db st) n = Some p ->
  let r := full_dispatch_request (app the_main) st (AtInt "/delete/" n) req in
  response r = redirect (url_for to_get_all_posts)
  /\ (forall q, In q (blog_posts (db (after r)))
                <-> In q (blog_posts (db st)) /\ BlogPost.id q <> n)
  /\ (forall c, In c (comments (db (after r))) -> Comment.parent_post_id c <> Some n)
  /\ (forall c, In c (comments (db st)) -> Comment.parent_post_id c <> Some n ->
        In c (comments (db (after r))))
  /\ map Comment.id (comments (db (after r))) = map Comment.id (comments (db st))
  /\ users (db (after r)) = users (db st)
  /\ session (after r) = session st.
Proof.
  intros Hn Hm Hq. cbv zeta. rewrite dispatch_delete by (assumption || lia).
  unfold delete_post. step_view. rewrite (bindable_in_range _ Hn). simpl.
  rewrite Hq. simpl.
  rewrite (query_get_id _ _ _ Hq).
  split; [reflexivity|]. split.
  { intros q. rewrite filter_In. split.
    - intros [Hin Hne]. split; [assumption|].
      intros He. rewrite He, Z.eqb_refl in Hne. discriminate.
    - intros [Hin Hne]. split; [assumption|].
      destruct (BlogPost.id q =? n) eqn:E; [apply Z.eqb_eq in E; contradiction | reflexivity]. }
  split.
  { intros c Hin. apply in_map_iff in Hin. destruct Hin as [c0 [<- _]].
    apply orphaned_parent. }
  split.
  { intros c Hin Hne. apply in_map_iff. exists c. split; [now apply orphan_other | assumption]. }
  split; [apply orphan_keeps_ids|]. split; reflexivity.
Qed.

(** *** How requests compose *)

Lemma In_rewritten (l : list BlogPost.t) (p' q : BlogPost.t) :
  In q (map (fun x => if BlogPost.id x =? BlogPost.id p' then p' else x) l) ->
  BlogPost.id q = BlogPost.id p' -> q = p'.
Proof.
  intros Hin He. apply in_map_iff in Hin. destruct Hin as [x [Hx _]].
  destruct (BlogPost.id x =? BlogPost.id p') eqn:E; [now subst|].
  subst q. rewrite He, Z.eqb_refl in E. discriminate.
Qed.

Lemma update_post_rows (s s' : Store) (p' : BlogPost.t) :
  update_post s p' = Ok s' ->
  blog_posts s'
  = map (fun x => if BlogPost.id x =? BlogPost.id p' then p' else x) (blog_posts s).
Proof.
  unfold update_post. destruct (existsb _ (blog_posts s)); [discriminate|].
  intros H. now inversion H.
Qed.

(** X14. After an edit that was answered by the redirect, the listing at
    [/] shows, under the edited id, only the submitted fields with the
    original date: the earlier title is not listed under that id any more.
    The listing has as many posts as before. *)
Theorem edit_then_list (st : State) (req req' : Request) (n : Z) (old : BlogPost.t) :
  0 <= n ->
  method req' = GET ->
  BlogPost_query_get (db st) n = Some old ->
  let r := full_dispatch_request (app the_main) st (AtInt "/edit-post/" n) req in
  response r = redirect (url_for (to_show_post n)) ->
  exists listed : list BlogPost.t,
    response (full_dispatch_request (app the_main) (after r) (At "/") req')
    = render_template (index_html listed)
    /\ List.length listed = List.length (blog_posts (db st))
    /\ (exists q, In q listed /\ BlogPost.id q = n)
    /\ (forall q, In q listed -> BlogPost.id q = n ->
          BlogPost.title q = data "title" (edit_form_for old req)
          /\ BlogPost.subtitle q = data "subtitle" (edit_form_for old req)
          /\ BlogPost.body q = data "body" (edit_form_for old req)
          /\ BlogPost.img_url q = data "img_url" (edit_form_for old req)
          /\ BlogPost.date q = BlogPost.date old).
Proof.
  intros Hn Hm Hq. cbv zeta. rewrite dispatch_edit_post by assumption.
  unfold edit_post. step_view.
  destruct (bindable n); simpl; [|discriminate].
  rewrite Hq. simpl.
  pose proof (query_get_id _ _ _ Hq) as Hid.
  destruct (validate_on_submit validate (edit_form_for old req)); simpl; [|discriminate].
  unfold assign_author.
  destruct (author_data (edit_form_for old req)) as [[| s | a]|]; step_view;
    try discriminate;
    match goal with
    | |- context [update_post ?s ?p'] =>
        destruct (update_post s p') as [s'|e] eqn:Hup; simpl; [|discriminate];
        pose proof (update_post_rows _ _ _ Hup) as Hrows;
        rewrite <- Hid in Hq;
        destruct (edit_post_commit _ _ _ _ _ _ _ _ Hq Hup) as (new & Hnew & Hnid & _)
    end;
    intros _; unfold full_dispatch_request; simpl; rewrite Hm; simpl;
    exists (blog_posts s');
    (split; [reflexivity|]);
    (split; [rewrite Hrows; apply length_map|]);
    (split;
     [ exists new; split; [apply find_some in Hnew; tauto | congruence]
     | intros q Hin He; rewrite Hrows in Hin; apply In_rewritten in Hin;
       [subst q; simpl; auto | simpl; congruence] ]).
Qed.

Lemma find_fresh_post (l : list BlogPost.t) :
  find (fun p => BlogPost.id p =? next_id (map BlogPost.id l)) l = None.
Proof.
  destruct (find _ l) as [p|] eqn:E; [|reflexivity].
  apply find_some in E. destruct E as [Hin He]. apply Z.eqb_eq in He.
  exfalso. apply (next_id_fresh (map BlogPost.id l)). rewrite <- He. now apply in_map.
Qed.

Lemma next_id_positive (l : list Z) : 1 <= next_id l.
Proof.
  unfold next_id. assert (0 <= fold_right Z.max 0 l); [|lia].
  induction l as [|x l IH]; simpl; lia.
Qed.

(** The successful path of [add_new_post]. *)
Lemma add_new_post_ok (st : State) (req : Request) :
  response (run (add_new_post validate req) st) = redirect (url_for to_get_all_posts) ->
  exists p : BlogPost.t,
    after (run (add_new_post validate req) st)
    = mkState (mkStore (users (db st)) (blog_posts (db st) ++ [p]) (comments (db st)))
        (session st)
    /\ BlogPost.id p = next_id (map BlogPost.id (blog_posts (db st))).
Proof.
  unfold add_new_post.
  destruct (validate_on_submit validate (new_form CreatePostForm [] req)); step_view;
    [|discriminate].
  destruct (identity st) as [u|]; simpl; [|discriminate].
  unfold insert_post.
  destruct (existsb _ (blog_posts (db st))); simpl; [discriminate|].
  intros _. eexists. split; reflexivity.
Qed.

(** X15. After a creation that was answered by the redirect, and as long
    as the keys of [blog_posts] have not reached the largest 64-bit key, the
    new post can be viewed: a GET of [/post/<id>] with the id of the
    appended row is answered with the post template for that very row, and
    changes nothing. *)
Theorem create_then_show (st : State) (req req' : Request) :
  method req' = GET ->
  next_id (map BlogPost.id (blog_posts (db st))) < 2 ^ 63 ->
  let r := full_dispatch_request (app the_main) st (At "/new-post") req in
  response r = redirect (url_for to_get_all_posts) ->
  exists p : BlogPost.t,
    blog_posts (db (after r)) = (blog_posts (db st) ++ [p])%list
    /\ ~ In (BlogPost.id p) (map BlogPost.id (blog_posts (db st)))
    /\ full_dispatch_request (app the_main) (after r) (AtInt "/post/" (BlogPost.id p)) req'
       = mkResult (after r) [] (render_template (post_html (Some p))).
Proof.
  intros Hm Hkey. cbv zeta. rewrite dispatch_new_post. intros Hok.
  destruct (add_new_post_ok st req Hok) as (p & Hafter & Hp).
  rewrite Hafter. exists p. split; [reflexivity|].
  split; [rewrite Hp; apply next_id_fresh|].
  pose proof (next_id_positive (map BlogPost.id (blog_posts (db st)))) as Hpos.
  rewrite dispatch_show_post by (rewrite Hp; lia).
  unfold show_post. step_view.
  rewrite bindable_in_range by (rewrite Hp; lia). simpl.
  rewrite (get_not_submitted _ _ _ Hm).
  unfold BlogPost_query_get. simpl.
  rewrite find_app_last; [reflexivity | rewrite Hp; apply find_fresh_post | apply Z.eqb_refl].
Qed.

(** The successful path of [login]. *)
Lemma login_ok (st : State) (req : Request) (u : User.t) :
  let form := new_form LoginForm [] req in
  validate_on_submit validate form = true ->
  User_filter_by_email_first (db st) (data "email" form) = Some u ->
  check_password_hash (User.password u) (data "password" form) = true ->
  full_dispatch_request (app the_main) st (At "/login") req
  = mkResult (mkState (db st) (Some (User.id u))) [] (redirect (url_for to_get_all_posts)).
Proof.
  cbv zeta. intros Hv Hf Hc. rewrite dispatch_login. unfold login.
  rewrite Hv. step_view. rewrite Hf. simpl. rewrite Hc. reflexivity.
Qed.

(** X16. Registering, logging out and logging in again with the same email
    and password gives back the session of the registration, provided the
    password check accepts the digest that registration stored. *)
Theorem register_logout_login (st : State) (req req_out req_in : Request) :
  let form := new_form RegisterForm [] req in
  let login_form := new_form LoginForm [] req_in in
  validate_on_submit validate form = true ->
  User_filter_by_email_first (db st) (data "email" form) = None ->
  method req_out = GET ->
  validate_on_submit validate login_form = true ->
  data "email" login_form = data "email" form ->
  check_password_hash
    (generate_password_hash (data "password" form) (salt req))
    (data "password" login_form) = true ->
  let registered := after (full_dispatch_request (app the_main) st (At "/register") req) in
  let logged_out :=
    after (full_dispatch_request (app the_main) registered (At "/logout") req_out) in
  let r := full_dispatch_request (app the_main) logged_out (At "/login") req_in in
  session logged_out = None
  /\ response r = redirect (url_for to_get_all_posts)
  /\ after r = registered
  /\ identity (after r) = identity registered
  /\ identity registered <> None.
Proof.
  cbv zeta. intros Hv Hnone Hm Hlv He Hc.
  destruct (register_fresh st req Hv Hnone) as (Hr & _ & Hid & Hmail).
  rewrite Hr in *. cbn [after] in *.
  rewrite dispatch_logout by assumption.
  change (after (run (logout req_out) ?s)) with (mkState (db s) None).
  cbn [db session].
  erewrite login_ok; [ | exact Hlv | cbn [db]; rewrite He; exact Hmail | exact Hc ].
  cbn [after response db session].
  do 4 (split; [reflexivity|]). rewrite Hid. discriminate.
Qed.

(** X17. The first user to register gets id 1 and is the administrator:
    after a validated registration into an empty [users] table the session
    user has id 1, and every function behind [admin_only] runs for that
    session as if it were not wrapped. *)
Theorem first_user_is_admin (st : State) (req req' : Request) (h : Handler) (n : Z) :
  users (db st) = [] ->
  validate_on_submit validate (new_form RegisterForm [] req) = true ->
  let registered := after (full_dispatch_request (app the_main) st (At "/register") req) in
  (exists u, identity registered = Some u /\ User.id u = 1)
  /\ call (admin_only h) n registered req' = call h n registered req'.
Proof.
  intros Hempty Hv. cbv zeta.
  assert (Hnone : User_filter_by_email_first (db st)
                    (data "email" (new_form RegisterForm [] req)) = None).
  { unfold User_filter_by_email_first. now rewrite Hempty. }
  destruct (register_fresh st req Hv Hnone) as (Hr & _ & Hid & _).
  rewrite Hr in *. cbn [after] in *.
  assert (Hone : next_id (map User.id (users (db st))) = 1) by now rewrite Hempty.
  split; [eexists; split; [exact Hid | exact Hone]|].
  destruct h as [f | f]; cbn [admin_only call];
    now rewrite (decorated_function_admin _ _ _ _ Hid Hone).
Qed.

Lemma find_by_unique_id (l : list User.t) (u : User.t) :
  NoDup (map User.id l) -> In u l ->
  find (fun v => User.id v =? User.id u) l = Some u.
Proof.
  induction l as [|x l IH]; simpl; [tauto|].
  intros Hnd Hin. inversion Hnd as [|? ? Hx Hl]; subst.
  destruct Hin as [->|Hin]; [now rewrite Z.eqb_refl|].
  destruct (User.id x =? User.id u) eqn:E; [|now apply IH].
  apply Z.eqb_eq in E. exfalso. apply Hx. rewrite E. now apply in_map.
Qed.

(** X18. When the keys of [users] are distinct, a successful login makes the
    user that was found by email the current user of the following
    requests. *)
Theorem login_then_current_user (st : State) (req : Request) (u : User.t) :
  let form := new_form LoginForm [] req in
  NoDup (map User.id (users (db st))) ->
  validate_on_submit validate form = true ->
  User_filter_by_email_first (db st) (data "email" form) = Some u ->
  check_password_hash (User.password u) (data "password" form) = true ->
  identity (after (full_dispatch_request (app the_main) st (At "/login") req)) = Some u.
Proof.
  cbv zeta. intros Hnd Hv Hf Hc. rewrite (login_ok st req u Hv Hf Hc). simpl.
  unfold identity, load_user, User_query_get. simpl.
  apply find_by_unique_id; [assumption|].
  unfold User_filter_by_email_first in Hf. now apply find_some in Hf.
Qed.

(** *** Invariants of the store *)

Lemma NoDup_map_snoc {A B} (f : A -> B) (l : list A) (x : A) :
  NoDup (map f l) -> ~ In (f x) (map f l) -> NoDup (map f (l ++ [x])).
Proof.
  intros Hn Hx. rewrite map_app. apply NoDup_app; [assumption | | ].
  - simpl. constructor; [tauto | constructor].
  - intros a Ha [<-|[]]. contradiction.
Qed.

Lemma NoDup_map_filter {A B} (f : A -> B) (g : A -> bool) (l : list A) :
  NoDup (map f l) -> NoDup (map f (filter g l)).
Proof.
  induction l as [|a l IH]; simpl; intros H; [constructor|].
  inversion H as [|? ? Ha Hl]; subst. destruct (g a); simpl; [|now apply IH].
  constructor; [|now apply IH].
  intros Hin. apply Ha. apply in_map_iff in Hin. destruct Hin as [x [Hx Hin]].
  apply filter_In in Hin. rewrite <- Hx. apply in_map. tauto.
Qed.

Lemma email_not_taken (l : list User.t) (e : string) :
  existsb (fun u => String.eqb (User.email u) e) l = false ->
  ~ In e (map User.email l).
Proof.
  intros H Hin. apply in_map_iff in Hin. destruct Hin as [u [He Hu]].
  assert (existsb (fun u => String.eqb (User.email u) e) l = true); [|congruence].
  apply existsb_exists. exists u. split; [assumption|]. rewrite He. apply String.eqb_refl.
Qed.

Lemma title_not_taken (l : list BlogPost.t) (t : string) :
  existsb (fun p => String.eqb (BlogPost.title p) t) l = false ->
  ~ In t (map BlogPost.title l).
Proof.
  intros H Hin. apply in_map_iff in Hin. destruct Hin as [p [He Hp]].
  assert (existsb (fun p => String.eqb (BlogPost.title p) t) l = true); [|congruence].
  apply existsb_exists. exists p. split; [assumption|]. rewrite He. apply String.eqb_refl.
Qed.

Lemma insert_user_wf (s : Store) (e un pw : string) (r : User.t * Store) :
  well_formed s -> insert_user s e un pw = Ok r -> well_formed (snd r).
Proof.
  intros (H1 & H2 & H3 & H4 & H5). unfold insert_user.
  destruct (existsb _ (users s)) eqn:E; [discriminate|].
  intros H. inversion H; subst r; clear H. simpl.
  repeat split; try assumption.
  - apply NoDup_map_snoc; [assumption | apply next_id_fresh].
  - apply NoDup_map_snoc; [assumption | now apply email_not_taken].
Qed.

Lemma insert_post_wf (s : Store) (a : option Z) (ti su da bo im : string)
    (r : BlogPost.t * Store) :
  well_formed s -> insert_post s a ti su da bo im = Ok r -> well_formed (snd r).
Proof.
  intros (H1 & H2 & H3 & H4 & H5). unfold insert_post.
  destruct (existsb _ (blog_posts s)) eqn:E; [discriminate|].
  intros H. inversion H; subst r; clear H. simpl.
  repeat split; try assumption.
  - apply NoDup_map_snoc; [assumption | apply next_id_fresh].
  - apply NoDup_map_snoc; [assumption | now apply title_not_taken].
Qed.

Lemma insert_comment_wf (s : Store) (a b : option Z) (t : string) :
  well_formed s -> well_formed (snd (insert_comment s a b t)).
Proof.
  intros (H1 & H2 & H3 & H4 & H5). simpl. repeat split; try assumption.
  apply NoDup_map_snoc; [assumption | apply next_id_fresh].
Qed.

Lemma rewrite_absent (l : list BlogPost.t) (p' : BlogPost.t) :
  ~ In (BlogPost.id p') (map BlogPost.id l) ->
  map (fun x => if BlogPost.id x =? BlogPost.id p' then p' else x) l = l.
Proof.
  induction l as [|x l IH]; simpl; intros H; [reflexivity|].
  destruct (BlogPost.id x =? BlogPost.id p') eqn:E.
  - apply Z.eqb_eq in E. exfalso. apply H. now left.
  - f_equal. apply IH. tauto.
Qed.

Lemma titles_rewritten (l : list BlogPost.t) (p' : BlogPost.t) :
  NoDup (map BlogPost.id l) ->
  NoDup (map BlogPost.title l) ->
  existsb (fun q => negb (BlogPost.id q =? BlogPost.id p')
                    && String.eqb (BlogPost.title q) (BlogPost.title p')) l = false ->
  NoDup (map BlogPost.title
           (map (fun x => if BlogPost.id x =? BlogPost.id p' then p' else x) l)).
Proof.
  induction l as [|q l IH]; simpl; intros Hid Hti Hex; [constructor|].
  inversion Hid as [|? ? Hq Hl]; subst. inversion Hti as [|? ? Hqt Hlt]; subst.
  apply orb_false_elim in Hex. destruct Hex as [Hq' Hex].
  destruct (BlogPost.id q =? BlogPost.id p') eqn:E.
  - apply Z.eqb_eq in E. rewrite rewrite_absent by (rewrite <- E; exact Hq).
    constructor; [|assumption].
    intros Hin. apply in_map_iff in Hin. destruct Hin as [x [Hx Hin]].
    assert (Hx' : negb (BlogPost.id x =? BlogPost.id p')
                  && String.eqb (BlogPost.title x) (BlogPost.title p') = false).
    { destruct (existsb_exists
                  (fun q => negb (BlogPost.id q =? BlogPost.id p')
                            && String.eqb (BlogPost.title q) (BlogPost.title p')) l)
        as [_ Hall].
      destruct (negb (BlogPost.id x =? BlogPost.id p')
                && String.eqb (BlogPost.title x) (BlogPost.title p')) eqn:Ex;
        [|reflexivity].
      rewrite Hall in Hex; [discriminate | exists x; auto]. }
    rewrite Hx, String.eqb_refl, andb_true_r in Hx'.
    apply negb_false_iff, Z.eqb_eq in Hx'.
    apply Hq. rewrite E, <- Hx'. now apply in_map.
  - simpl in Hq'. constructor; [|now apply IH].
    intros Hin. apply in_map_iff in Hin. destruct Hin as [y [Hy Hin]].
    apply in_map_iff in Hin. destruct Hin as [x [Hx Hin]].
    destruct (BlogPost.id x =? BlogPost.id p').
    + subst y. rewrite <- Hy, String.eqb_refl in Hq'. discriminate.
    + subst y. apply Hqt. rewrite <- Hy. now apply in_map.
Qed.

Lemma update_post_wf (s s' : Store) (p' : BlogPost.t) :
  well_formed s -> update_post s p' = Ok s' -> well_formed s'.
Proof.
  intros (H1 & H2 & H3 & H4 & H5). unfold update_post.
  destruct (existsb _ (blog_posts s)) eqn:E; [discriminate|].
  intros H. inversion H; subst s'; clear H. unfold well_formed. simpl.
  repeat split; try assumption.
  - now rewrite ids_rewritten.
  - now apply titles_rewritten.
Qed.

Lemma delete_post_row_wf (s : Store) (p : BlogPost.t) :
  well_formed s -> well_formed (delete_post_row s p).
Proof.
  intros (H1 & H2 & H3 & H4 & H5). unfold delete_post_row, well_formed. simpl.
  repeat split; try assumption.
  - now apply NoDup_map_filter.
  - now apply NoDup_map_filter.
  - now rewrite orphan_keeps_ids.
Qed.

(** X19. Every request keeps the store well formed: if the keys of the
    three tables, the emails of [users] and the titles of [blog_posts] are
    pairwise distinct before a request, they are so after it. *)
Theorem well_formed_preserved (st : State) (u : Url) (req : Request) :
  well_formed (db st) ->
  well_formed (db (after (full_dispatch_request (app the_main) st u req))).
Proof.
  intros Hwf. apply dispatch_cases; try exact Hwf.
  - unfold register. step_view. split_matches; try exact Hwf.
    eapply insert_user_wf; eauto.
  - unfold login. step_view. split_matches; exact Hwf.
  - intros n _. unfold show_post. step_view. split_matches; try exact Hwf.
    now apply (insert_comment_wf (db st)).
  - unfold add_new_post. step_view. split_matches; try exact Hwf.
    eapply insert_post_wf; eauto.
  - intros n. unfold edit_post, assign_author. step_view. split_matches; try exact Hwf;
      eapply update_post_wf; eauto.
  - intros n. unfold delete_post. step_view. split_matches; try exact Hwf.
    now apply delete_post_row_wf.
Qed.

Lemma find_app_some {A} (f : A -> bool) (l l' : list A) (x : A) :
  find f l = Some x -> find f (l ++ l') = Some x.
Proof.
  induction l as [|y l IH]; simpl; [discriminate|].
  destruct (f y); [trivial | exact IH].
Qed.

Lemma identity_query (st : State) (u : User.t) :
  identity st = Some u -> User_query_get (db st) (User.id u) = Some u.
Proof.
  unfold identity. destruct (session st) as [uid|]; [|discriminate].
  intros H. destruct (load_user_id _ _ _ H) as [<- _]. exact H.
Qed.

(** X20. Every request keeps the commenters resolvable: if each comment
    that names a commenter names a stored user before a request, the same
    holds after it, new comment included. *)
Theorem commenters_exist_preserved (st : State) (u : Url) (req : Request) :
  commenters_exist (db st) ->
  commenters_exist (db (after (full_dispatch_request (app the_main) st u req))).
Proof.
  intros Hce. apply dispatch_cases; try exact Hce.
  - unfold register, insert_user. step_view. split_matches; try exact Hce.
    intros c uid Hin Hc. destruct (Hce c uid Hin Hc) as [w Hw].
    exists w. unfold User_query_get in *. simpl. now apply find_app_some.
  - unfold login. step_view. split_matches; exact Hce.
  - intros n _. unfold show_post. step_view. split_matches; try exact Hce.
    intros c uid Hin Hc. simpl in Hin. apply in_app_or in Hin.
    destruct Hin as [Hin | [<- | []]].
    + exact (Hce c uid Hin Hc).
    + simpl in Hc. inversion Hc; subst uid. eexists.
      match goal with H : identity st = Some _ |- _ => exact (identity_query _ _ H) end.
  - unfold add_new_post, insert_post. step_view. split_matches; exact Hce.
  - intros n. unfold edit_post, assign_author, update_post. step_view.
    split_matches; exact Hce.
  - intros n. unfold delete_post. step_view. split_matches; try exact Hce.
    intros c uid Hin Hc. simpl in Hin. apply in_map_iff in Hin.
    destruct Hin as [c0 [<- Hin]].
    rewrite (proj1 (proj2 (orphan_fields _ c0))) in Hc. exact (Hce c0 uid Hin Hc).
Qed.

(** *** The date stamp *)

Lemma digit_inj (a b : Z) : 0 <= a < 10 -> 0 <= b < 10 -> digit a = digit b -> a = b.
Proof.
  intros Ha Hb H. unfold digit in H.
  rewrite (Z.mod_small a 10), (Z.mod_small b 10) in H by lia.
  apply (f_equal nat_of_ascii) in H.
  rewrite !nat_ascii_embedding in H by lia. lia.
Qed.

Lemma two_digits_inj (a b : Z) :
  0 <= a < 100 -> 0 <= b < 100 -> two_digits a = two_digits b -> a = b.
Proof.
  intros Ha Hb H. unfold two_digits in H. inversion H as [[H1 H2]].
  apply digit_inj in H1; [|split; [apply Z.div_pos; lia | apply Z.div_lt_upper_bound; lia]
                          |split; [apply Z.div_pos; lia | apply Z.div_lt_upper_bound; lia]].
  unfold digit in H2. apply (f_equal nat_of_ascii) in H2.
  rewrite !nat_ascii_embedding in H2
    by (pose proof (Z.mod_pos_bound a 10); pose proof (Z.mod_pos_bound b 10); lia).
  assert (a mod 10 = b mod 10)
    by (pose proof (Z.mod_pos_bound a 10); pose proof (Z.mod_pos_bound b 10); lia).
  rewrite (Z.div_mod a 10), (Z.div_mod b 10) by lia. lia.
Qed.

Lemma digit_mod_inj (a b : Z) : digit a = digit b -> a mod 10 = b mod 10.
Proof.
  intros H. unfold digit in H. apply (f_equal nat_of_ascii) in H.
  pose proof (Z.mod_pos_bound a 10). pose proof (Z.mod_pos_bound b 10).
  rewrite !nat_ascii_embedding in H by lia. lia.
Qed.

Lemma decimal_inj (a b : Z) : 0 <= a -> 0 <= b -> decimal a = decimal b -> a = b.
Proof.
  intros Ha Hb H. unfold decimal in H.
  apply (f_equal NilEmpty.uint_of_string) in H. rewrite !NilEmpty.usu in H.
  inversion H as [H']. apply DecimalN.Unsigned.to_uint_inj in H'.
  now apply Z2N.inj.
Qed.

Lemma append_cancel_l (s a b : string) : s ++ a = s ++ b -> a = b.
Proof.
  induction s as [|c s IH]; simpl; intros H; [assumption|].
  inversion H. now apply IH.
Qed.

Lemma month_name_inj (m m' : Z) (a b : string) :
  1 <= m <= 12 -> 1 <= m' <= 12 ->
  month_name m ++ String " " a = month_name m' ++ String " " b -> m = m'.
Proof.
  intros Hm Hm' H.
  assert (Em : m = 1 \/ m = 2 \/ m = 3 \/ m = 4 \/ m = 5 \/ m = 6
               \/ m = 7 \/ m = 8 \/ m = 9 \/ m = 10 \/ m = 11 \/ m = 12) by lia.
  assert (Em' : m' = 1 \/ m' = 2 \/ m' = 3 \/ m' = 4 \/ m' = 5 \/ m' = 6
                \/ m' = 7 \/ m' = 8 \/ m' = 9 \/ m' = 10 \/ m' = 11 \/ m' = 12) by lia.
  clear Hm Hm'.
  repeat (destruct Em as [Em | Em]); subst m;
    repeat (destruct Em' as [Em' | Em']); subst m';
    first [reflexivity | simpl in H; discriminate H].
Qed.

(** X21. The date stamp of a post determines the day: two dates of the
    calendar that [strftime] renders to the same text under ["%B %d, %Y"]
    are the same date. *)
Theorem date_stamp_injective (d d' : Date) :
  valid_date d -> valid_date d' ->
  strftime d "%B %d, %Y" = strftime d' "%B %d, %Y" ->
  d = d'.
Proof.
  intros (Hy & Hm & Hd) (Hy' & Hm' & Hd') H.
  rewrite !strftime_B_d_Y in H.
  destruct d as [y m dd], d' as [y' m' dd']. cbn [year month day] in *.
  change (" " ++ ?x) with (String " " x) in H.
  pose proof (month_name_inj _ _ _ _ Hm Hm' H) as Em. subst m'.
  apply append_cancel_l in H. unfold two_digits in H. cbn [append] in H.
  inversion H as [[H1 H2 H3]].
  assert (Ed : dd = dd').
  { apply two_digits_inj; [lia | lia |]. unfold two_digits. now rewrite H1, H2. }
  subst dd'. f_equal.
  apply decimal_inj; [lia | lia | exact H3].
Qed.

End Properties.

(** ** The properties on the sample states *)

Import Fixture.

(** C1. The guard is not in front of the routed functions.  The reader
    (user 2) creates a post through [/new-post], rewrites post 1 through
    [/edit-post/1] and deletes it through [/delete/1]; the anonymous visitor
    deletes it as well.  None of the answers is a 403, and each request
    changes [blog_posts].  The wrapped functions, which are bound to the
    module-level names only, do answer 403 to the reader, and let the
    reading of [current_user.id] fail for the anonymous visitor. *)
Theorem non_admin_reaches_post_mutations :
  let created := full_dispatch_request the_app as_reader (At "/new-post") (post a_post) in
  let edited := full_dispatch_request the_edit_app as_reader (AtInt "/edit-post/" 1) (post a_post) in
  let deleted := full_dispatch_request the_app as_reader (AtInt "/delete/" 1) get in
  let deleted_anonymously :=
    full_dispatch_request the_app as_anonymous (AtInt "/delete/" 1) get in
  let names := main validate no_author generate_password_hash check_password_hash in
  identity as_reader = Some reader
  /\ User.id reader <> 1
  /\ identity as_anonymous = None
  /\ response created = redirect (At "/")
  /\ blog_posts (db (after created))
     = [hello; BlogPost.mk 2 (Some 2) "Second" "more" "November 03, 2026" "text" "two.png"]
  /\ response edited = redirect (AtInt "/post/" 1)
  /\ blog_posts (db (after edited))
     = [BlogPost.mk 1 (Some 1) "Second" "more" "November 01, 2026" "text" "two.png"]
  /\ response deleted = redirect (At "/")
  /\ blog_posts (db (after deleted)) = []
  /\ response deleted_anonymously = redirect (At "/")
  /\ blog_posts (db (after deleted_anonymously)) = []
  /\ call (g_add_new_post names) 0 as_reader (post a_post) = mkResult as_reader [] (abort 403)
  /\ call (g_delete_post names) 1 as_reader get = mkResult as_reader [] (abort 403)
  /\ call (g_delete_post names) 1 as_anonymous get
     = mkResult as_anonymous [] (InternalServerError AttributeError).
Proof.
  cbv zeta. repeat split; try reflexivity. discriminate.
Qed.

(** C2, counterexample. Post 9 is not stored, and viewing [/post/9] is not
    answered with a 404: the view returns what the post template gives for
    no post; the same happens for [/post/1] right after the administrator
    deleted post 1. *)
Lemma show_post_absent_not_404 :
  let after_delete := after (full_dispatch_request the_app as_admin (AtInt "/delete/" 1) get) in
  BlogPost_query_get (db as_reader) 9 = None
  /\ response (full_dispatch_request the_app as_reader (AtInt "/post/" 9) get) <> abort 404
  /\ BlogPost_query_get (db after_delete) 1 = None
  /\ response (full_dispatch_request the_app after_delete (AtInt "/post/" 1) get)
     = render_template (post_html None).
Proof. cbv zeta. repeat split; try reflexivity. discriminate. Qed.

(** C3, counterexample. The reader submits a comment to [/post/9], which is
    not stored: a comment row is created and its parent is empty, so it is
    linked to no post at all. *)
Lemma comment_on_absent_post_has_no_parent :
  let r := full_dispatch_request the_app as_reader (AtInt "/post/" 9)
             (post [("comment_text", "hi")]) in
  comments (db as_reader) = []
  /\ comments (db (after r)) = [Comment.mk 1 (Some 2) None "hi"]
  /\ ~ (forall c, In c (comments (db (after r))) ->
          exists p, In p (blog_posts (db (after r)))
                    /\ Comment.parent_post_id c = Some (BlogPost.id p)).
Proof.
  cbv zeta. split; [reflexivity|]. split; [reflexivity|].
  intros H. destruct (H (Comment.mk 1 (Some 2) None "hi")) as [p [_ Hp]].
  - left. reflexivity.
  - discriminate.
Qed.

(** ** Instances *)

Lemma show_post_absent_witness :
  full_dispatch_request Fixture.the_app Fixture.as_reader (AtInt "/post/" 9) Fixture.get
  = mkResult Fixture.as_reader [] (render_template (post_html None)).
Proof.
  refine (proj1 (show_post_absent Fixture.validate Fixture.no_author
                   Fixture.generate_password_hash Fixture.check_password_hash
                   Fixture.as_reader Fixture.get Fixture.get 9 _ _) _).
  - reflexivity.
  - reflexivity.
  - reflexivity.
Defined.

Lemma created_comment_links_witness :
  exists (post_id : Z) (commenter : User.t),
    post_id = 1 /\ commenter = Fixture.reader
    /\ User_query_get Fixture.store0 2 = Some commenter
    /\ BlogPost_query_get Fixture.store0 post_id = Some Fixture.hello.
Proof.
  destruct (created_comment_links Fixture.validate Fixture.no_author
              Fixture.generate_password_hash Fixture.check_password_hash
              Fixture.as_reader (AtInt "/post/" 1)
              (Fixture.post [("comment_text", "hi")])
              (Comment.mk 1 (Some 2) (Some 1) "hi"))
    as (n & w & Hu & Hid & Hc & Hw & Hp).
  - simpl. left. reflexivity.
  - simpl. tauto.
  - exists n, w. inversion Hu; subst n. inversion Hid; subst w.
    repeat split; reflexivity.
Defined.

Lemma register_duplicate_email_witness :
  full_dispatch_request Fixture.the_app Fixture.as_anonymous (At "/register")
    (Fixture.post [("email", "admin@blog.example"); ("password", "x"); ("username", "me")])
  = mkResult Fixture.as_anonymous
      ["You've already signed up with that email, log in instead!"]
      (redirect (At "/login")).
Proof.
  apply (register_duplicate_email Fixture.validate Fixture.no_author
           Fixture.generate_password_hash Fixture.check_password_hash
           Fixture.as_anonymous _ Fixture.admin).
  - reflexivity.
  - simpl. left. reflexivity.
  - reflexivity.
Defined.

Lemma login_establishes_session_iff_witness :
  session (after (full_dispatch_request Fixture.the_app Fixture.as_anonymous (At "/login")
                    (Fixture.post [("email", "reader@blog.example"); ("password", "secret")])))
  = Some 2.
Proof.
  refine (proj1 (proj1 (proj2 (login_establishes_session_iff Fixture.validate Fixture.no_author
                   Fixture.generate_password_hash Fixture.check_password_hash
                   Fixture.as_anonymous
                   (Fixture.post [("email", "reader@blog.example"); ("password", "secret")])
                   _)) Fixture.reader _ _)).
  - reflexivity.
  - reflexivity.
  - reflexivity.
Defined.


Lemma create_post_title_collision_witness :
  after (full_dispatch_request Fixture.the_app Fixture.as_admin (At "/new-post")
           (Fixture.post [("title", "Hello"); ("subtitle", "again"); ("img_url", "h.png");
                          ("body", "text")]))
  = Fixture.as_admin.
Proof.
  refine (proj1 (create_post_title_collision Fixture.validate Fixture.no_author
                   Fixture.generate_password_hash Fixture.check_password_hash
                   Fixture.as_admin _ Fixture.hello _ _)).
  - simpl. left. reflexivity.
  - reflexivity.
Defined.

Lemma create_post_success_witness :
  full_dispatch_request Fixture.the_app Fixture.as_admin (At "/new-post")
    (Fixture.post Fixture.a_post)
  = mkResult
      (mkState
         (mkStore [Fixture.admin; Fixture.reader]
            [Fixture.hello;
             BlogPost.mk 2 (Some 1) "Second" "more" "November 03, 2026" "text" "two.png"]
            [])
         (Some 1))
      [] (redirect (At "/")).
Proof.
  refine (proj1 (create_post_success Fixture.validate Fixture.no_author
                   Fixture.generate_password_hash Fixture.check_password_hash
                   Fixture.as_admin (Fixture.post Fixture.a_post) Fixture.admin _ _ _)).
  - reflexivity.
  - reflexivity.
  - intros q [<- | []]. discriminate.
Defined.

Lemma edit_post_frame_witness :
  exists (old new : BlogPost.t),
    BlogPost_query_get Fixture.store0 1 = Some old
    /\ BlogPost.id new = BlogPost.id old
    /\ BlogPost.date new = BlogPost.date old
    /\ BlogPost.title new = "Hello again".
Proof.
  destruct (edit_post_frame Fixture.validate Fixture.author_text_field
              Fixture.generate_password_hash Fixture.check_password_hash
              Fixture.as_admin
              (Fixture.post [("title", "Hello again"); ("subtitle", "more");
                             ("img_url", "two.png"); ("body", "text")])
              1 1)
    as (old & new & _ & Hold & _ & Hi & Hd & Ht & _).
  - lia.
  - reflexivity.
  - exists old, new. split; [exact Hold|]. split; [exact Hi|]. split; [exact Hd | exact Ht].
Defined.

(** ** Instances of the further properties *)

Lemma register_success_witness :
  after (full_dispatch_request Fixture.the_app Fixture.as_anonymous (At "/register")
           (Fixture.post Scenario.signup))
  = mkState (mkStore [Fixture.admin; Fixture.reader; Scenario.newcomer] [Fixture.hello] [])
      (Some 3).
Proof.
  refine (f_equal after
            (proj1 (register_success Fixture.validate Fixture.no_author
                      Fixture.generate_password_hash Fixture.check_password_hash
                      Fixture.as_anonymous (Fixture.post Scenario.signup) _ _))).
  - reflexivity.
  - reflexivity.
Defined.

Lemma register_never_fails_witness :
  response (full_dispatch_request Fixture.the_app Fixture.as_anonymous (At "/register")
              (Fixture.post Scenario.signup))
  <> InternalServerError IntegrityError.
Proof.
  exact (register_never_fails Fixture.validate Fixture.no_author
           Fixture.generate_password_hash Fixture.check_password_hash
           Fixture.as_anonymous (Fixture.post Scenario.signup) IntegrityError).
Defined.

Lemma admin_only_protects_state_witness :
  call (admin_only (WithPostId delete_post)) 1 Fixture.as_reader Fixture.get
  = mkResult Fixture.as_reader [] (abort 403).
Proof.
  refine (admin_only_protects_state (WithPostId delete_post) 1
            Fixture.as_reader Fixture.get _).
  intros u Hu. inversion Hu. simpl. lia.
Defined.

Lemma admin_only_transparent_witness :
  call (admin_only (WithPostId delete_post)) 1 Fixture.as_admin Fixture.get
  = call (WithPostId delete_post) 1 Fixture.as_admin Fixture.get.
Proof.
  apply (admin_only_transparent (WithPostId delete_post) 1 Fixture.as_admin Fixture.get
           Fixture.admin).
  - reflexivity.
  - reflexivity.
Defined.

Lemma get_is_read_only_witness :
  after (full_dispatch_request Fixture.the_app Fixture.as_reader (At "/new-post") Fixture.get)
  = Fixture.as_reader.
Proof.
  refine (proj1 (get_is_read_only Fixture.validate Fixture.no_author
                   Fixture.generate_password_hash Fixture.check_password_hash
                   Fixture.as_reader (At "/new-post") Fixture.get _ _ _)).
  - reflexivity.
  - discriminate.
  - discriminate.
Defined.

Lemma get_only_routes_refuse_post_witness :
  full_dispatch_request Fixture.the_app Fixture.as_admin (AtInt "/delete/" 1)
    (Fixture.post [])
  = mkResult Fixture.as_admin [] (abort 405).
Proof.
  refine (proj2 (proj2 (proj2 (proj2
            (get_only_routes_refuse_post Fixture.validate Fixture.no_author
               Fixture.generate_password_hash Fixture.check_password_hash
               Fixture.as_admin (Fixture.post []) 1 _ _))))).
  - reflexivity.
  - lia.
Defined.

Lemma negative_post_id_not_found_witness :
  full_dispatch_request Fixture.the_app Fixture.as_admin (AtInt "/post/" (-1)) Fixture.get
  = mkResult Fixture.as_admin [] (abort 404).
Proof.
  refine (proj1 (negative_post_id_not_found Fixture.validate Fixture.no_author
                   Fixture.generate_password_hash Fixture.check_password_hash
                   Fixture.as_admin Fixture.get (-1) _)).
  lia.
Defined.

Lemma edit_post_absent_witness :
  full_dispatch_request Fixture.the_app Fixture.as_admin (AtInt "/edit-post/" 9) Fixture.get
  = mkResult Fixture.as_admin [] (InternalServerError AttributeError).
Proof.
  apply (edit_post_absent Fixture.validate Fixture.no_author
           Fixture.generate_password_hash Fixture.check_password_hash).
  - lia.
  - reflexivity.
Defined.

Lemma delete_post_absent_witness :
  full_dispatch_request Fixture.the_app Fixture.as_admin (AtInt "/delete/" 9) Fixture.get
  = mkResult Fixture.as_admin [] (InternalServerError UnmappedInstanceError).
Proof.
  apply (delete_post_absent Fixture.validate Fixture.no_author
           Fixture.generate_password_hash Fixture.check_password_hash).
  - lia.
  - reflexivity.
  - reflexivity.
Defined.

Lemma comments_persist_witness :
  exists c',
    In c' (comments (db (after (full_dispatch_request Fixture.the_app Scenario.commented
                                  (AtInt "/delete/" 1) Fixture.get))))
    /\ Comment.id c' = 1
    /\ Comment.commenter_id c' = Some 2
    /\ Comment.text c' = "hi".
Proof.
  exact (comments_persist Fixture.validate Fixture.no_author
           Fixture.generate_password_hash Fixture.check_password_hash
           Scenario.commented (AtInt "/delete/" 1) Fixture.get Scenario.a_comment
           (or_introl eq_refl)).
Defined.

Lemma delete_post_effect_witness :
  map Comment.id
    (comments (db (after (full_dispatch_request Fixture.the_app Scenario.commented
                            (AtInt "/delete/" 1) Fixture.get))))
  = [1].
Proof.
  refine (proj1 (proj2 (proj2 (proj2 (proj2
            (delete_post_effect Fixture.validate Fixture.no_author
               Fixture.generate_password_hash Fixture.check_password_hash
               Scenario.commented Fixture.get 1 Fixture.hello _ _ _)))))).
  - lia.
  - reflexivity.
  - reflexivity.
Defined.

Lemma edit_then_list_witness :
  exists listed : list BlogPost.t,
    response (full_dispatch_request Fixture.the_edit_app
                (after (full_dispatch_request Fixture.the_edit_app Fixture.as_admin
                          (AtInt "/edit-post/" 1) (Fixture.post Fixture.a_post)))
                (At "/") Fixture.get)
    = render_template (index_html listed)
    /\ List.length listed = 1%nat.
Proof.
  destruct (edit_then_list Fixture.validate Fixture.author_text_field
              Fixture.generate_password_hash Fixture.check_password_hash
              Fixture.as_admin (Fixture.post Fixture.a_post) Fixture.get 1 Fixture.hello)
    as (listed & Hl & Hlen & _).
  - lia.
  - reflexivity.
  - reflexivity.
  - reflexivity.
  - exists listed. split; [exact Hl | exact Hlen].
Defined.

Lemma create_then_show_witness :
  exists p : BlogPost.t,
    blog_posts (db (after (full_dispatch_request Fixture.the_app Fixture.as_admin
                             (At "/new-post") (Fixture.post Fixture.a_post))))
    = [Fixture.hello; p].
Proof.
  destruct (create_then_show Fixture.validate Fixture.no_author
              Fixture.generate_password_hash Fixture.check_password_hash
              Fixture.as_admin (Fixture.post Fixture.a_post) Fixture.get)
    as (p & Hp & _).
  - reflexivity.
  - reflexivity.
  - reflexivity.
  - exists p. exact Hp.
Defined.

Lemma register_logout_login_witness :
  response
    (full_dispatch_request Fixture.the_app
       (after (full_dispatch_request Fixture.the_app
                 (after (full_dispatch_request Fixture.the_app Fixture.as_anonymous
                           (At "/register") (Fixture.post Scenario.signup)))
                 (At "/logout") Fixture.get))
       (At "/login") (Fixture.post Scenario.credentials))
  = redirect (At "/").
Proof.
  refine (proj1 (proj2
            (register_logout_login Fixture.validate Fixture.no_author
               Fixture.generate_password_hash Fixture.check_password_hash
               Fixture.as_anonymous (Fixture.post Scenario.signup) Fixture.get
               (Fixture.post Scenario.credentials) _ _ _ _ _ _))).
  - reflexivity.
  - reflexivity.
  - reflexivity.
  - reflexivity.
  - reflexivity.
  - reflexivity.
Defined.

Lemma first_user_is_admin_witness :
  exists u,
    identity (after (full_dispatch_request Fixture.the_app Scenario.nobody (At "/register")
                       (Fixture.post Scenario.signup))) = Some u
    /\ User.id u = 1.
Proof.
  refine (proj1 (first_user_is_admin Fixture.validate Fixture.no_author
                   Fixture.generate_password_hash Fixture.check_password_hash
                   Scenario.nobody (Fixture.post Scenario.signup) Fixture.get
                   (Plain (add_new_post Fixture.validate)) 0 _ _)).
  - reflexivity.
  - reflexivity.
Defined.

Lemma sample_well_formed : well_formed Fixture.store0.
Proof.
  unfold well_formed. simpl.
  repeat split; repeat constructor; simpl; intuition (try discriminate).
Defined.

Lemma login_then_current_user_witness :
  identity (after (full_dispatch_request Fixture.the_app Fixture.as_anonymous (At "/login")
                     (Fixture.post [("email", "reader@blog.example");
                                    ("password", "secret")])))
  = Some Fixture.reader.
Proof.
  apply (login_then_current_user Fixture.validate Fixture.no_author
           Fixture.generate_password_hash Fixture.check_password_hash).
  - exact (proj1 sample_well_formed).
  - reflexivity.
  - reflexivity.
  - reflexivity.
Defined.

Lemma well_formed_preserved_witness :
  well_formed (db (after (full_dispatch_request Fixture.the_app Fixture.as_admin
                            (At "/new-post") (Fixture.post Fixture.a_post)))).
Proof.
  apply (well_formed_preserved Fixture.validate Fixture.no_author
           Fixture.generate_password_hash Fixture.check_password_hash).
  exact sample_well_formed.
Defined.

Lemma commenters_exist_preserved_witness :
  commenters_exist
    (db (after (full_dispatch_request Fixture.the_app Scenario.commented
                  (AtInt "/post/" 1) (Fixture.post [("comment_text", "again")])))).
Proof.
  apply (commenters_exist_preserved Fixture.validate Fixture.no_author
           Fixture.generate_password_hash Fixture.check_password_hash).
  intros c uid [<- | []] Hc. inversion Hc. exists Fixture.reader. reflexivity.
Defined.

Lemma date_stamp_injective_witness : mkDate 2026 11 3 = Fixture.a_day.
Proof.
  apply date_stamp_injective.
  - unfold valid_date. simpl. lia.
  - unfold valid_date. simpl. lia.
  - reflexivity.
Defined.
